(** * Verification of the kubeadm-python-cluster configuration scripts

    The three source files are Python configuration scripts, evaluated top to
    bottom by their host application with a configuration object [c] in
    scope.  We embed them as follows:
    - Python values are [pyval]; the configuration object [c] is a finite map
      from ["Section.attribute"] keys to values ([config]);
    - [os.environ] is a finite map from names to strings ([environ]);
    - each script is a list of statements ([stmt]) interpreted in a small
      state-and-exception monad [M] over the process state ([pstate]): the
      configuration object, the lines written to the log or stdout, and the
      filesystem;
    - the filesystem is a map from paths to nodes (directory or file);
      [pathlib.Path.mkdir] and [open(..., 'w')] are embedded over it. *)

From Stdlib Require Import ZArith Ascii String List Bool.
From stdpp Require Import base gmap strings list fin_maps.
Import ListNotations.
Set Warnings "-register-all".
Open Scope string_scope.

(* ------------------------------------------------------------------ *)
(** ** Python values and exceptions *)

(** Decimal value of a parsed [float] literal, before rounding to a binary
    double (rounding is not modelled: no claim depends on it). *)
Inductive pyfloat :=
| FDec (mant : Z) (exp10 : Z)     (* mant * 10 ^ exp10 *)
| FInf (neg : bool)
| FNan.

Inductive pyval :=
| PNone
| PBool (b : bool)
| PInt (z : Z)
| PFloat (f : pyfloat)
| PStr (s : string)
| PList (xs : list pyval)
| PDict (kvs : list (string * pyval))
| PSet (xs : gset string)
| PObj (name : string).          (* classes, functions, lambdas *)

(** Paths are lists of components from the leaf up to the root:
    [/home/jovyan/data] is [["data"; "jovyan"; "home"]], and the parent of a
    path drops its head (the parent of the root [[]] is itself). *)
Abbreviation path := (list string).

Inductive exn :=
| ValueError (msg : string)
| TypeError (msg : string)
| AttributeError (msg : string)
| FileExistsError (p : path)       (* errno 17, EEXIST *)
| FileNotFoundError (p : path)     (* errno 2, ENOENT *)
| NotADirectoryError (p : path)    (* errno 20, ENOTDIR *)
| PermissionError (p : path)       (* errno 13, EACCES *)
| IsADirectoryError (p : path).    (* errno 21, EISDIR *)

(** Every modelled exception derives from [Exception], so [except
    Exception] catches all of them. *)
Definition is_Exception (e : exn) : bool :=
  match e with
  | ValueError _ | TypeError _ | AttributeError _ | FileExistsError _
  | FileNotFoundError _ | NotADirectoryError _ | PermissionError _
  | IsADirectoryError _ => true
  end.

Definition path_str (p : path) : string :=
  "/" ++ String.concat "/" (rev p).

Definition oserror_str (errno : string) (what : string) (p : path) : string :=
  "[Errno " ++ errno ++ "] " ++ what ++ ": '" ++ path_str p ++ "'".

(** [str(e)] *)
Definition exn_str (e : exn) : string :=
  match e with
  | ValueError m | TypeError m | AttributeError m => m
  | FileExistsError p => oserror_str "17" "File exists" p
  | FileNotFoundError p => oserror_str "2" "No such file or directory" p
  | NotADirectoryError p => oserror_str "20" "Not a directory" p
  | PermissionError p => oserror_str "13" "Permission denied" p
  | IsADirectoryError p => oserror_str "21" "Is a directory" p
  end.

(* ------------------------------------------------------------------ *)
(** ** A state and exception monad *)

Inductive outcome (A : Type) :=
| Ok (a : A)
| Raise (e : exn).
Arguments Ok {A} a.
Arguments Raise {A} e.

(** On an exception the state reached so far is kept (files created before
    the failure stay created). *)
Definition M (S A : Type) := S -> S * outcome A.

Definition ret {S A} (a : A) : M S A := fun s => (s, Ok a).
Definition throw {S A} (e : exn) : M S A := fun s => (s, Raise e).
Definition bind {S A B} (m : M S A) (k : A -> M S B) : M S B :=
  fun s => match m s with
           | (s', Ok a) => k a s'
           | (s', Raise e) => (s', Raise e)
           end.
Definition get {S} : M S S := fun s => (s, Ok s).
Definition modify {S} (f : S -> S) : M S unit := fun s => (f s, Ok tt).
Definition lift_outcome {S A} (o : outcome A) : M S A := fun s => (s, o).

(** [try: m  except Exception as e: h e] *)
Definition try_except {S A} (m : M S A) (h : exn -> M S A) : M S A :=
  fun s => match m s with
           | (s', Raise e) => if is_Exception e then h e s' else (s', Raise e)
           | r => r
           end.

Notation "'let*' x := m 'in' k" := (bind m (fun x => k))
  (at level 200, x name, m at level 100, k at level 200).
Notation "m ;;; k" := (bind m (fun _ => k)) (at level 100, right associativity).

(** A [for] loop over a list. *)
Fixpoint for_each {S A} (xs : list A) (body : A -> M S unit) : M S unit :=
  match xs with
  | [] => ret tt
  | x :: xs' => body x ;;; for_each xs' body
  end.

(* ------------------------------------------------------------------ *)
(** ** Strings *)

Definition char_eqb (a b : ascii) : bool := Ascii.eqb a b.

(** [str.split(sep)] with an explicit one-character separator. *)
Fixpoint split_on (sep : ascii) (s : string) : list string :=
  match s with
  | EmptyString => [EmptyString]
  | String c rest =>
      if char_eqb c sep then EmptyString :: split_on sep rest
      else match split_on sep rest with
           | h :: t => String c h :: t
           | [] => [String c EmptyString]
           end
  end.

(** [sep.join(xs)] *)
Definition join (sep : string) (xs : list string) : string := String.concat sep xs.

(** [str.lower()] on ASCII text. *)
Definition lower_char (c : ascii) : ascii :=
  let n := nat_of_ascii c in
  if (65 <=? n)%nat && (n <=? 90)%nat then ascii_of_nat (n + 32) else c.
Fixpoint lower (s : string) : string :=
  match s with
  | EmptyString => EmptyString
  | String c rest => String (lower_char c) (lower rest)
  end.

Fixpoint repeat_str (n : nat) (s : string) : string :=
  match n with O => EmptyString | S k => s ++ repeat_str k s end.

(* ------------------------------------------------------------------ *)
(** ** [int(str)] and [float(str)] *)

(** The ASCII characters [int] and [float] strip from both ends of their
    argument: tab, line feed, vertical tab, form feed, carriage return and
    space.  (The separators 0x1C-0x1F, which [str.isspace()] also accepts,
    are not stripped: [int('\x1c8')] raises [ValueError].) *)
Definition is_space (c : ascii) : bool :=
  let n := nat_of_ascii c in
  ((9 <=? n) && (n <=? 13))%nat || (n =? 32)%nat.

Definition is_digit (c : ascii) : bool :=
  let n := nat_of_ascii c in ((48 <=? n) && (n <=? 57))%nat.

Definition digit_val (c : ascii) : Z := Z.of_nat (nat_of_ascii c - 48).

Fixpoint drop_spaces (cs : list ascii) : list ascii :=
  match cs with
  | c :: cs' => if is_space c then drop_spaces cs' else cs
  | [] => []
  end.

Definition strip (cs : list ascii) : list ascii := rev (drop_spaces (rev (drop_spaces cs))).

(** [_Py_string_to_number_with_underscores]: an underscore is allowed only
    between two digits, and is then dropped. [prev] is the previous
    character. *)
Fixpoint remove_underscores (prev : option ascii) (cs : list ascii) : option (list ascii) :=
  match cs with
  | [] => Some []
  | c :: cs' =>
      if char_eqb c "_"%char then
        match prev, cs' with
        | Some p, n :: _ => if is_digit p && is_digit n
                            then remove_underscores (Some c) cs' else None
        | _, _ => None
        end
      else option_map (cons c) (remove_underscores (Some c) cs')
  end.

Definition all_digits (cs : list ascii) : bool := forallb is_digit cs.

Definition digits_value (cs : list ascii) : Z :=
  fold_left (fun acc c => acc * 10 + digit_val c)%Z cs 0%Z.

(** The decimal digit string of [int()]: an optional sign then one or more
    digits. *)
Definition parse_signed_digits (cs : list ascii) : option (bool * list ascii) :=
  let '(neg, ds) := match cs with
                    | "-"%char :: r => (true, r)
                    | "+"%char :: r => (false, r)
                    | _ => (false, cs)
                    end in
  match ds with
  | [] => None
  | _ => if all_digits ds then Some (neg, ds) else None
  end.

Section Conversions.
(** [sys.get_int_max_str_digits()]: 4300 by default since CPython 3.11 (and
    the 3.10.7, 3.9.14, 3.8.14 security releases), [0] when disabled. *)
Variable int_max_str_digits : nat.

Definition int_literal_error (s : string) : exn :=
  ValueError ("invalid literal for int() with base 10: '" ++ s ++ "'").

(** [int(s)] for a string [s], base 10. *)
Definition py_int_of_string (s : string) : outcome Z :=
  match remove_underscores None (strip (list_ascii_of_string s)) with
  | None => Raise (int_literal_error s)
  | Some cs =>
      match parse_signed_digits cs with
      | None => Raise (int_literal_error s)
      | Some (neg, ds) =>
          if (0 <? int_max_str_digits)%nat && (int_max_str_digits <? length ds)%nat
          then Raise (ValueError "Exceeds the limit for integer string conversion")
          else let v := digits_value ds in Ok (if neg then (- v)%Z else v)
      end
  end.

(** [int(v)] *)
Definition py_int (v : pyval) : outcome Z :=
  match v with
  | PInt z => Ok z
  | PBool b => Ok (if b then 1%Z else 0%Z)
  | PStr s => py_int_of_string s
  | _ => Raise (TypeError "int() argument must be a string or a real number")
  end.
End Conversions.

(** Case-insensitive comparison with a lower-case keyword. *)
Definition ci_eq (cs : list ascii) (kw : string) : bool :=
  String.eqb (lower (string_of_list_ascii cs)) kw.

(** [digitpart] of the float grammar: a maximal run of digits. *)
Fixpoint span_digits (cs : list ascii) : list ascii * list ascii :=
  match cs with
  | c :: cs' => if is_digit c then let '(ds, r) := span_digits cs' in (c :: ds, r)
                else ([], cs)
  | [] => ([], [])
  end.

(** [PyOS_string_to_double] on an underscore-free string, which must be
    consumed entirely:
    [sign? (inf | infinity | nan | (digits [. digits?] | . digits) ([eE] sign? digits)?)]. *)
Definition parse_float_body (cs : list ascii) : option pyfloat :=
  let '(neg, r) := match cs with
                   | "-"%char :: r => (true, r)
                   | "+"%char :: r => (false, r)
                   | _ => (false, cs)
                   end in
  if ci_eq r "inf" || ci_eq r "infinity" then Some (FInf neg)
  else if ci_eq r "nan" then Some FNan
  else
    let '(ip, r1) := span_digits r in
    let '(fp, has_dot, r2) :=
      match r1 with
      | "."%char :: r1' => let '(fp, r2) := span_digits r1' in (fp, true, r2)
      | _ => ([], false, r1)
      end in
    match ip, fp with
    | [], [] => None
    | _, _ =>
        let mant := digits_value (ip ++ fp) in
        let mant := if neg then (- mant)%Z else mant in
        let shift := (- Z.of_nat (length fp))%Z in
        match r2 with
        | [] => Some (FDec mant shift)
        | e :: r3 =>
            if char_eqb e "e"%char || char_eqb e "E"%char then
              let '(eneg, r4) := match r3 with
                                 | "-"%char :: r => (true, r)
                                 | "+"%char :: r => (false, r)
                                 | _ => (false, r3)
                                 end in
              let '(eds, r5) := span_digits r4 in
              match eds, r5 with
              | _ :: _, [] =>
                  let ev := digits_value eds in
                  Some (FDec mant (shift + if eneg then - ev else ev)%Z)
              | _, _ => None
              end
            else None
        end
    end.

(** [float(s)] for a string [s]. *)
Definition py_float_of_string (s : string) : outcome pyfloat :=
  let err := ValueError ("could not convert string to float: '" ++ s ++ "'") in
  match remove_underscores None (strip (list_ascii_of_string s)) with
  | None => Raise err
  | Some cs => match parse_float_body cs with
               | Some f => Ok f
               | None => Raise err
               end
  end.

(** [float(v)] *)
Definition py_float (v : pyval) : outcome pyfloat :=
  match v with
  | PFloat f => Ok f
  | PInt z => Ok (FDec z 0)
  | PStr s => py_float_of_string s
  | _ => Raise (TypeError "float() argument must be a string or a real number")
  end.

(* ------------------------------------------------------------------ *)
(** ** The environment *)

Abbreviation environ := (gmap string string).

(** [os.environ.get(k, d)] *)
Definition env_get (env : environ) (k : string) (d : pyval) : pyval :=
  match env !! k with Some v => PStr v | None => d end.

(** Python truthiness of a value. *)
Definition truthy (v : pyval) : bool :=
  match v with
  | PNone => false
  | PBool b => b
  | PInt z => negb (Z.eqb z 0)
  | PFloat (FDec m _) => negb (Z.eqb m 0)
  | PFloat _ => true
  | PStr s => negb (String.eqb s "")
  | PList xs => negb (Nat.eqb (length xs) 0)
  | PDict kvs => negb (Nat.eqb (length kvs) 0)
  | PSet xs => negb (bool_decide (xs = ∅))
  | PObj _ => true
  end.

(** [str(v)] for the values that are printed or formatted. *)
Definition py_str (v : pyval) : string :=
  match v with
  | PNone => "None"
  | PBool true => "True"
  | PBool false => "False"
  | PStr s => s
  | PObj n => n
  | _ => "<value>"
  end.

(** [os.environ.get(k, d).lower() == 'true'] *)
Definition env_flag (env : environ) (k d : string) : bool :=
  String.eqb (lower (match env !! k with Some v => v | None => d end)) "true".

(* ------------------------------------------------------------------ *)
(** ** The filesystem *)

(** File contents: arbitrary text, or the text [json.dump(v, f, indent=i)]
    writes. *)
Inductive fcontent :=
| Text (s : string)
| JsonDump (v : pyval) (indent : Z).

Inductive node :=
| NDir (writable : bool)
| NFile (data : fcontent).

Abbreviation fs := (gmap path node).

(** Path resolution by the kernel: walking from the root, a missing
    component gives ENOENT and a file used as a directory gives ENOTDIR. *)
Inductive resolution :=
| Found (n : node)
| NoEnt
| NotDir.

Fixpoint resolve (s : fs) (p : path) : resolution :=
  match p with
  | [] => match s !! [] with Some n => Found n | None => NoEnt end
  | _ :: q =>
      match resolve s q with
      | Found (NDir _) => match s !! p with Some n => Found n | None => NoEnt end
      | Found (NFile _) => NotDir
      | r => r
      end
  end.

(** [Path.exists()] and [Path.is_dir()] *)
Definition path_exists (s : fs) (p : path) : bool :=
  match resolve s p with Found _ => true | _ => false end.
Definition path_is_dir (s : fs) (p : path) : bool :=
  match resolve s p with Found (NDir _) => true | _ => false end.

Definition is_OSError (e : exn) : bool :=
  match e with
  | FileExistsError _ | FileNotFoundError _ | NotADirectoryError _
  | PermissionError _ | IsADirectoryError _ => true
  | _ => false
  end.

(** [os.mkdir(p)]: new directories are writable by the user. *)
Definition os_mkdir (p : path) : M fs unit := fun s =>
  match p with
  | [] => match resolve s [] with
          | Found _ => (s, Raise (FileExistsError p))
          | _ => (s, Raise (FileNotFoundError p))
          end
  | _ :: q =>
      match resolve s q with
      | NoEnt => (s, Raise (FileNotFoundError p))
      | NotDir | Found (NFile _) => (s, Raise (NotADirectoryError p))
      | Found (NDir w) =>
          match s !! p with
          | Some _ => (s, Raise (FileExistsError p))
          | None => if w then (<[p := NDir true]> s, Ok tt)
                    else (s, Raise (PermissionError p))
          end
      end
  end.

(** [Path.mkdir(parents=False, exist_ok=exist_ok)]:
<<
    try:
        os.mkdir(self, mode)
    except FileNotFoundError:
        if not parents or self.parent == self:
            raise
        ...
    except OSError:
        if not exist_ok or not self.is_dir():
            raise
>> *)
Definition mkdir_single (exist_ok : bool) (p : path) : M fs unit := fun s =>
  match os_mkdir p s with
  | (s1, Raise e) =>
      match e with
      | FileNotFoundError _ => (s1, Raise e)
      | _ => if is_OSError e && exist_ok && path_is_dir s1 p then (s1, Ok tt)
             else (s1, Raise e)
      end
  | r => r
  end.

(** [Path.mkdir(parents=True, exist_ok=exist_ok)]: the [FileNotFoundError]
    branch creates the parent with [parents=True, exist_ok=True] and then
    retries [self.mkdir(parents=False, exist_ok=exist_ok)]. *)
Fixpoint mkdir_parents (exist_ok : bool) (p : path) : M fs unit := fun s =>
  match os_mkdir p s with
  | (s1, Raise e) =>
      match e with
      | FileNotFoundError _ =>
          match p with
          | [] => (s1, Raise e)                    (* self.parent == self *)
          | _ :: q => (mkdir_parents true q ;;; mkdir_single exist_ok p) s1
          end
      | _ => if is_OSError e && exist_ok && path_is_dir s1 p then (s1, Ok tt)
             else (s1, Raise e)
      end
  | r => r
  end.

(** [with open(p, 'w') as f: f.write(data)]: truncates an existing file,
    creates a missing one in a writable directory. *)
Definition open_write (p : path) (data : fcontent) : M fs unit := fun s =>
  match p with
  | [] => (s, Raise (IsADirectoryError p))
  | _ :: q =>
      match resolve s q with
      | NoEnt => (s, Raise (FileNotFoundError p))
      | NotDir | Found (NFile _) => (s, Raise (NotADirectoryError p))
      | Found (NDir w) =>
          match s !! p with
          | Some (NDir _) => (s, Raise (IsADirectoryError p))
          | Some (NFile _) => (<[p := NFile data]> s, Ok tt)
          | None => if w then (<[p := NFile data]> s, Ok tt)
                    else (s, Raise (PermissionError p))
          end
      end
  end.

Definition nl : string := String (ascii_of_nat 10) EmptyString.
Definition dq : string := String (ascii_of_nat 34) EmptyString.

(** The [welcome_content] dictionary of [setup_user_environment]. *)
Definition welcome_content (env : environ) (user_home : path) : pyval :=
  let pyver := py_str (env_get env "PYTHON_VERSION" (PStr "3.11")) in
  PDict [
    ("cells", PList [
       PDict [
         ("cell_type", PStr "markdown");
         ("metadata", PDict []);
         ("source", PList (map PStr [
            "# Welcome to kubeadm-python-cluster JupyterLab!" ++ nl ++ nl;
            "This is your personal Jupyter environment running on Kubernetes." ++ nl ++ nl;
            "## Getting Started" ++ nl ++ nl;
            "- This notebook is running Python " ++ pyver ++ nl;
            "- Your home directory: `" ++ path_str user_home ++ "`" ++ nl;
            "- Available libraries: numpy, pandas, matplotlib, scikit-learn, and many more!" ++ nl ++ nl;
            "## Directories" ++ nl ++ nl;
            "- `notebooks/` - Store your Jupyter notebooks here" ++ nl;
            "- `data/` - Store datasets and data files" ++ nl;
            "- `projects/` - Organize your code projects" ++ nl ++ nl;
            "Happy coding! 🚀"]))];
       PDict [
         ("cell_type", PStr "code");
         ("execution_count", PNone);
         ("metadata", PDict []);
         ("outputs", PList []);
         ("source", PList (map PStr [
            "# Quick environment check" ++ nl;
            "import sys" ++ nl;
            "import numpy as np" ++ nl;
            "import pandas as pd" ++ nl;
            "import matplotlib.pyplot as plt" ++ nl;
            nl;
            "print(f" ++ dq ++ "Python version: {sys.version}" ++ dq ++ ")" ++ nl;
            "print(f" ++ dq ++ "NumPy version: {np.__version__}" ++ dq ++ ")" ++ nl;
            "print(f" ++ dq ++ "Pandas version: {pd.__version__}" ++ dq ++ ")" ++ nl;
            "print(" ++ dq ++ "\nEnvironment is ready! 🎉" ++ dq ++ ")"]))]]);
    ("metadata", PDict [
       ("kernelspec", PDict [
          ("display_name", PStr ("Python " ++ pyver));
          ("language", PStr "python");
          ("name", PStr "python3")]);
       ("language_info", PDict [
          ("name", PStr "python");
          ("version", PStr pyver)])]);
    ("nbformat", PInt 4);
    ("nbformat_minor", PInt 4)].

Definition user_directories (user_home : path) : list path :=
  [ "notebooks" :: user_home;
    "data" :: user_home;
    "projects" :: user_home;
    "custom" :: ".jupyter" :: user_home ].

Definition sample_notebook (user_home : path) : path :=
  "Welcome.ipynb" :: "notebooks" :: user_home.

(** [setup_user_environment()]; [user_home] is [Path.home()]. *)
Definition setup_user_environment (env : environ) (user_home : path) : M fs unit :=
  for_each (user_directories user_home) (fun d => mkdir_parents true d) ;;;
  let* s := get in
  if path_exists s (sample_notebook user_home) then ret tt
  else open_write (sample_notebook user_home) (JsonDump (welcome_content env user_home) 2).

(* ------------------------------------------------------------------ *)
(** ** Configuration scripts *)

(** The configuration object [c]: ["Section.attribute"] to value. *)
Abbreviation config := (gmap string pyval).

Record pstate := mkPState {
  cfg : config;         (* the configuration object c *)
  out : list string;    (* lines printed or logged, in order *)
  disk : fs             (* the filesystem *)
}.

(** Reading back a configuration value assigned earlier in the script. *)
Definition cfg_get (c : config) (k : string) : pyval :=
  match c !! k with Some v => v | None => PNone end.

Definition rhs := environ -> config -> outcome pyval.

(** The statement forms the scripts use. *)
Inductive stmt :=
| Assign (key : string) (e : rhs)                       (* c.S.a = e *)
| AssignIf (cond : environ -> bool) (body : list (string * rhs))
                                                        (* if cond: c.S.a = e ... *)
| AppendTo (key : string) (v : pyval)                   (* c.S.a.append(v) *)
| Emit (msg : environ -> config -> string)              (* print(..) / log.info(..) *)
| TryCall (f : environ -> M fs unit) (warn : exn -> string).
                                  (* try: f()  except Exception as e: print(warn e) *)

Definition set_cfg (k : string) (v : pyval) : M pstate unit :=
  modify (fun st => mkPState (<[k := v]> (cfg st)) (out st) (disk st)).

Definition emit (line : string) : M pstate unit :=
  modify (fun st => mkPState (cfg st) (out st ++ [line]) (disk st)).

Definition lift_fs {A} (m : M fs A) : M pstate A := fun st =>
  let '(d, r) := m (disk st) in (mkPState (cfg st) (out st) d, r).

Definition exec_assign (env : environ) (ke : string * rhs) : M pstate unit :=
  let* st := get in
  let* v := lift_outcome (snd ke env (cfg st)) in
  set_cfg (fst ke) v.

Definition exec_stmt (env : environ) (s : stmt) : M pstate unit :=
  match s with
  | Assign k e => exec_assign env (k, e)
  | AssignIf cond body => if cond env then for_each body (exec_assign env) else ret tt
  | AppendTo k v =>
      let* st := get in
      match cfg st !! k with
      | Some (PList xs) => set_cfg k (PList (xs ++ [v]))
      | _ => throw (AttributeError "append")
      end
  | Emit msg => let* st := get in emit (msg env (cfg st))
  | TryCall f warn => try_except (lift_fs (f env)) (fun e => emit (warn e))
  end.

(** Evaluating a script: its statements top to bottom. *)
Definition exec_script (env : environ) (prog : list stmt) : M pstate unit :=
  for_each prog (exec_stmt env).

Definition const (v : pyval) : rhs := fun _ _ => Ok v.
Definition from_env (k : string) (d : pyval) : rhs := fun env _ => Ok (env_get env k d).

(** [os.path.join(a, b)] *)
Definition os_path_join (a b : string) : string :=
  match b with
  | String "/" _ => b
  | _ => if String.eqb a "" then b
         else if String.eqb (String.substring (String.length a - 1) 1 a) "/" then a ++ b
         else a ++ "/" ++ b
  end.

(* ------------------------------------------------------------------ *)
(** ** jupyterhub_config.py *)

(** [set(os.environ.get('JUPYTERHUB_ADMIN_USERS', 'admin').split(','))] *)
Definition admin_users_of (env : environ) : gset string :=
  list_to_set (split_on ","%char
                 (match env !! "JUPYTERHUB_ADMIN_USERS" with Some v => v | None => "admin" end)).

Definition float_from_env (k d : string) : rhs := fun env _ =>
  match py_float (env_get env k (PStr d)) with
  | Ok f => Ok (PFloat f)
  | Raise e => Raise e
  end.

Definition fl (m e : Z) : pyval := PFloat (FDec m e).

Definition kube_override (image : string) (cpu_l : pyval) (mem_l : string)
           (cpu_g : pyval) (mem_g : string) : list (string * pyval) :=
  [("image_spec", PStr image); ("cpu_limit", cpu_l); ("mem_limit", PStr mem_l);
   ("cpu_guarantee", cpu_g); ("mem_guarantee", PStr mem_g)].

(** The literal of [c.KubeSpawner.profile_list] (lines 111-174). *)
Definition profile_list : list pyval := [
  PDict [("display_name", PStr "Python 3.11 (Default)");
         ("description", PStr "Latest Python with modern libraries");
         ("default", PBool true);
         ("kubespawner_override", PDict (kube_override
            "kubeadm-python-cluster/jupyterlab:3.11" (fl 10 (-1)) "2G" (fl 5 (-1)) "1G"))];
  PDict [("display_name", PStr "Python 3.10");
         ("description", PStr "Python 3.10 with stable libraries");
         ("kubespawner_override", PDict (kube_override
            "kubeadm-python-cluster/jupyterlab:3.10" (fl 10 (-1)) "2G" (fl 5 (-1)) "1G"))];
  PDict [("display_name", PStr "Python 3.9");
         ("description", PStr "Python 3.9 with compatible libraries");
         ("kubespawner_override", PDict (kube_override
            "kubeadm-python-cluster/jupyterlab:3.9" (fl 10 (-1)) "2G" (fl 5 (-1)) "1G"))];
  PDict [("display_name", PStr "Python 3.8 (Legacy)");
         ("description", PStr "Python 3.8 for legacy compatibility");
         ("kubespawner_override", PDict (kube_override
            "kubeadm-python-cluster/jupyterlab:3.8" (fl 8 (-1)) "1.5G" (fl 3 (-1)) "0.5G"))];
  PDict [("display_name", PStr "High-Performance Computing");
         ("description", PStr "Python 3.11 with extended resources for compute-intensive tasks");
         ("kubespawner_override", PDict (kube_override
            "kubeadm-python-cluster/jupyterlab:3.11" (fl 20 (-1)) "4G" (fl 10 (-1)) "2G" ++
            [("environment", PDict [("JUPYTER_ENABLE_LAB", PStr "1");
                                    ("GRANT_SUDO", PStr "yes");
                                    ("OMP_NUM_THREADS", PStr "2");
                                    ("NUMBA_NUM_THREADS", PStr "2")])]))]].

(** The literal of [c.KubeSpawner.volume_mounts] (lines 51-57). *)
Definition volume_mounts : list pyval := [
  PDict [("name", PStr "home"); ("mountPath", PStr "/home/jovyan");
         ("subPath", PStr "home/{username}")]].

(** [c.KubeSpawner.volumes] (lines 58-65): the claim name is read back from
    [c.KubeSpawner.pvc_name_template]. *)
Definition volumes_of (c : config) : list pyval := [
  PDict [("name", PStr "home");
         ("persistentVolumeClaim",
            PDict [("claimName", cfg_get c "KubeSpawner.pvc_name_template")])]].

Definition spawner_environment : list (string * pyval) := [
  ("JUPYTER_ENABLE_LAB", PStr "1"); ("GRANT_SUDO", PStr "yes");
  ("NB_UID", PStr "1000"); ("NB_GID", PStr "1000"); ("CHOWN_HOME", PStr "yes");
  ("PYTHONPATH", PStr "/usr/local/lib/python3.11/site-packages")].

Definition idle_culler_service : pyval :=
  PDict [("name", PStr "idle-culler");
         ("command", PList (map PStr ["python3"; "-m"; "jupyterhub_idle_culler";
                                      "--timeout=3600"; "--max-age=7200";
                                      "--remove-named-servers"; "--cull-users"]));
         ("admin", PBool true)].

Definition health_check_script : string :=
  nl ++ "import json" ++ nl ++ "import tornado.web" ++ nl ++ "import tornado.ioloop" ++ nl ++
  "from tornado.httpserver import HTTPServer" ++ nl ++ nl ++
  "class HealthHandler(tornado.web.RequestHandler):" ++ nl ++
  "    def get(self):" ++ nl ++
  "        self.write({" ++ dq ++ "status" ++ dq ++ ": " ++ dq ++ "ok" ++ dq ++ ", " ++
  dq ++ "timestamp" ++ dq ++ ": " ++ dq ++ "2025-01-09" ++ dq ++ "})" ++ nl ++ nl ++
  "app = tornado.web.Application([" ++ nl ++
  "    (r" ++ dq ++ "/health" ++ dq ++ ", HealthHandler)," ++ nl ++ "])" ++ nl ++ nl ++
  "if __name__ == " ++ dq ++ "__main__" ++ dq ++ ":" ++ nl ++
  "    server = HTTPServer(app)" ++ nl ++ "    server.listen(8082)" ++ nl ++
  "    tornado.ioloop.IOLoop.current().start()" ++ nl.

Definition health_check_service : pyval :=
  PDict [("name", PStr "health-check"); ("url", PStr "http://0.0.0.0:8082");
         ("command", PList [PStr "python3"; PStr "-c"; PStr health_check_script]);
         ("admin", PBool false)].

Definition logging_INFO : pyval := PInt 20.
Definition logging_DEBUG : pyval := PInt 10.

(** [if os.environ.get('JUPYTERHUB_SSL_CERT'): ...] (lines 235-238) *)
Definition tls_block : stmt :=
  AssignIf (fun env => truthy (env_get env "JUPYTERHUB_SSL_CERT" PNone))
    [("JupyterHub.ssl_cert", from_env "JUPYTERHUB_SSL_CERT" PNone);
     ("JupyterHub.ssl_key", from_env "JUPYTERHUB_SSL_KEY" PNone);
     ("JupyterHub.redirect_to_server", const (PBool false))].

(** Basic JupyterHub configuration (lines 16-27). *)
Definition hub_basic : list stmt := [
  Assign "JupyterHub.hub_ip" (const (PStr "0.0.0.0"));
  Assign "JupyterHub.hub_port" (const (PInt 8081));
  Assign "JupyterHub.port" (const (PInt 8000));
  Assign "JupyterHub.db_url" (from_env "JUPYTERHUB_DB_URL" (PStr "sqlite:///jupyterhub.sqlite"));
  Assign "JupyterHub.cookie_secret_file" (const (PStr "/srv/jupyterhub/jupyterhub_cookie_secret"));
  Assign "Authenticator.admin_users" (fun env _ => Ok (PSet (admin_users_of env)))].

(** Kubernetes integration (lines 34-47). *)
Definition hub_kubernetes : list stmt := [
  Assign "JupyterHub.spawner_class" (const (PObj "kubespawner.KubeSpawner"));
  Assign "KubeSpawner.namespace" (from_env "JUPYTERHUB_NAMESPACE" (PStr "jupyterhub"));
  Assign "KubeSpawner.service_account" (const (PStr "jupyterhub"));
  Assign "KubeSpawner.image_spec"
    (from_env "JUPYTERHUB_SINGLEUSER_IMAGE" (PStr "kubeadm-python-cluster/jupyterlab:3.11"));
  Assign "KubeSpawner.cpu_limit" (float_from_env "JUPYTERHUB_CPU_LIMIT" "1.0");
  Assign "KubeSpawner.mem_limit" (from_env "JUPYTERHUB_MEM_LIMIT" (PStr "2G"));
  Assign "KubeSpawner.cpu_guarantee" (float_from_env "JUPYTERHUB_CPU_GUARANTEE" "0.5");
  Assign "KubeSpawner.mem_guarantee" (from_env "JUPYTERHUB_MEM_GUARANTEE" (PStr "1G"))].

(** Storage configuration (lines 50-65). *)
Definition hub_storage : list stmt := [
  Assign "KubeSpawner.pvc_name_template" (const (PStr "jupyterhub-user-{username}"));
  Assign "KubeSpawner.volume_mounts" (const (PList volume_mounts));
  Assign "KubeSpawner.volumes" (fun _ c => Ok (PList (volumes_of c)))].

(** PVC, environment and security context (lines 68-86) and authentication
    (lines 96-98). *)
Definition hub_spawner_auth : list stmt := [
  Assign "KubeSpawner.storage_capacity" (from_env "JUPYTERHUB_STORAGE_CAPACITY" (PStr "5Gi"));
  Assign "KubeSpawner.storage_class" (from_env "JUPYTERHUB_STORAGE_CLASS" (PStr "standard"));
  Assign "KubeSpawner.environment" (const (PDict spawner_environment));
  Assign "KubeSpawner.security_context"
    (const (PDict [("runAsUser", PInt 1000); ("runAsGroup", PInt 1000); ("fsGroup", PInt 1000)]));
  Assign "JupyterHub.authenticator_class" (const (PStr "nativeauthenticator.NativeAuthenticator"));
  Assign "NativeAuthenticator.create_users" (const (PBool true));
  Assign "NativeAuthenticator.enable_signup"
    (fun env _ => Ok (PBool (env_flag env "JUPYTERHUB_ENABLE_SIGNUP" "True")))].

(** Profiles (line 111), logging, services, UI and network settings
    (lines 180-228). *)
Definition hub_profiles_services : list stmt := [
  Assign "KubeSpawner.profile_list" (const (PList profile_list));
  Assign "JupyterHub.log_level" (const logging_INFO);
  Assign "JupyterHub.log_format"
    (const (PStr "[%(levelname)s %(asctime)s.%(msecs)03d %(name)s %(module)s:%(lineno)d] %(message)s"));
  Assign "JupyterHub.extra_log_file" (const (PStr "/var/log/jupyterhub/jupyterhub.log"));
  Assign "JupyterHub.services" (const (PList [idle_culler_service]));
  Assign "JupyterHub.logo_file" (const (PStr "/etc/jupyterhub/static/logo.png"));
  Assign "JupyterHub.template_paths" (const (PList [PStr "/etc/jupyterhub/templates"]));
  Assign "JupyterHub.template_vars"
    (fun env _ => Ok (PDict [("announcement", env_get env "JUPYTERHUB_ANNOUNCEMENT" (PStr ""));
                             ("org_name", PStr "kubeadm-python-cluster");
                             ("org_url", PStr "#")]));
  Assign "JupyterHub.cleanup_servers" (const (PBool true));
  Assign "JupyterHub.cleanup_proxy" (const (PBool true));
  Assign "JupyterHub.activity_resolution" (const (PInt 30))].

(** Lines 241-282 of jupyterhub_config.py. *)
Definition hub_settings_tail : list stmt := [
  Assign "JupyterHub.tornado_settings"
    (const (PDict [("headers", PDict [("Content-Security-Policy", PStr
       "default-src 'self'; img-src 'self' data:; style-src 'self' 'unsafe-inline'; script-src 'self' 'unsafe-inline' 'unsafe-eval'")])]));
  Assign "KubeSpawner.pre_spawn_hook" (const (PObj "pre_spawn_hook"));
  Assign "KubeSpawner.post_stop_hook" (const (PObj "post_stop_hook"));
  AssignIf (fun env => env_flag env "JUPYTERHUB_DEBUG" "False")
    [("JupyterHub.log_level", const logging_DEBUG);
     ("Application.log_level", const logging_DEBUG)]].

(** [c.JupyterHub.log] on the traitlets [Config] object [c]: the file never
    assigns it, and [Config.__getitem__] on a missing lower-case key stores a
    fresh [LazyConfigValue] under it and returns that. *)
Definition lazy_config_value : pyval := PObj "LazyConfigValue".

Definition config_getitem (c : config) (k : string) : pyval :=
  match c !! k with Some v => v | None => lazy_config_value end.

(** A [LazyConfigValue] has no attribute [info]. *)
Definition log_info_error : exn :=
  AttributeError "'LazyConfigValue' object has no attribute 'info'".

(** [c.JupyterHub.log.info(msg)]: evaluating the callee reads (and stores)
    [c.JupyterHub.log], then the lookup of [.info] raises; Python evaluates
    the callee before the argument, so [msg] is never formed.  The second
    statement is that raising lookup (an [Assign] whose right-hand side
    raises writes nothing). *)
Definition hub_log_info : list stmt := [
  Assign "JupyterHub.log" (fun _ c => Ok (config_getitem c "JupyterHub.log"));
  Assign "JupyterHub.log" (fun _ _ => Raise log_info_error)].

(** Lines 285-318 of jupyterhub_config.py: the four start-up log calls
    (lines 285, 286, 287, 288) and the [append] of the health-check service
    (line 295). *)
Definition hub_startup : list stmt :=
  hub_log_info ++ hub_log_info ++ hub_log_info ++ hub_log_info ++
  [AppendTo "JupyterHub.services" health_check_service].

(** Lines 241-318 of jupyterhub_config.py. *)
Definition hub_script_tail : list stmt := hub_settings_tail ++ hub_startup.

Definition hub_script : list stmt :=
  hub_basic ++ hub_kubernetes ++ hub_storage ++ hub_spawner_auth ++
  hub_profiles_services ++ [tls_block] ++ hub_script_tail.

(** The statements of the hub script before line 285. *)
Definition hub_config : list stmt :=
  hub_basic ++ hub_kubernetes ++ hub_storage ++ hub_spawner_auth ++
  hub_profiles_services ++ [tls_block] ++ hub_settings_tail.

(** The spawner object the hub passes to [pre_spawn_hook]: [spawner.user.name],
    [spawner.environment] and the lines logged through [spawner.log]. *)
Record spawner := mkSpawner {
  user_name : string;
  environment : gmap string string;
  spawner_log : list string
}.

Definition log_info (line : string) : M spawner unit :=
  modify (fun sp => mkSpawner (user_name sp) (environment sp) (spawner_log sp ++ [line])).

(** [x in coll] for a string [x]. *)
Definition py_contains (coll : pyval) (x : string) : outcome bool :=
  match coll with
  | PSet xs => Ok (bool_decide (x ∈ xs))
  | PList xs => Ok (existsb (fun v => match v with PStr y => String.eqb x y | _ => false end) xs)
  | PDict kvs => Ok (existsb (fun kv => String.eqb x (fst kv)) kvs)
  | _ => Raise (TypeError "argument is not iterable")
  end.

(** [pre_spawn_hook(spawner)], run against the configuration object [c];
    [now] is [datetime.now()] rendered as text. *)
Definition pre_spawn_hook (c : config) (now : string) : M spawner unit :=
  let* sp := get in
  let username := user_name sp in
  log_info ("Pre-spawn hook for user: " ++ username) ;;;
  let* is_admin := lift_outcome (py_contains (cfg_get c "Authenticator.admin_users") username) in
  (if is_admin
   then modify (fun sp => mkSpawner (user_name sp)
                            (<["JUPYTER_ADMIN" := "1"]> (environment sp)) (spawner_log sp))
   else ret tt) ;;;
  log_info ("Starting server for " ++ username ++ " at " ++ now).

(** [post_stop_hook(spawner)]; [now] is [datetime.now()] rendered as text. *)
Definition post_stop_hook (now : string) : M spawner unit :=
  let* sp := get in
  log_info ("Server stopped for " ++ user_name sp ++ " at " ++ now).

(* ------------------------------------------------------------------ *)
(** ** jupyter_lab_config.py *)

Section LabScript.
(** [sys.get_int_max_str_digits()] of the interpreter running the script. *)
Variable int_max_str_digits : nat.
(** [Path.home()] *)
Variable user_home : path.

Definition int_from_env (k : string) (d : pyval) : rhs := fun env _ =>
  match py_int int_max_str_digits (env_get env k d) with
  | Ok z => Ok (PInt z)
  | Raise e => Raise e
  end.

Definition root_dir_join (suffix : string) : rhs := fun _ c =>
  Ok (PStr (os_path_join (py_str (cfg_get c "ServerApp.root_dir")) suffix)).

(** Server, file and security configuration (lines 12-54). *)
Definition lab_server : list stmt := [
  Assign "ServerApp.ip" (const (PStr "0.0.0.0"));
  Assign "ServerApp.port" (int_from_env "JUPYTER_PORT" (PInt 8888));
  Assign "ServerApp.open_browser" (const (PBool false));
  Assign "ServerApp.allow_root" (const (PBool false));
  Assign "ServerApp.base_url" (from_env "JUPYTER_BASE_URL" (PStr "/"));
  Assign "ServerApp.token" (from_env "JUPYTER_TOKEN" (PStr ""));
  Assign "ServerApp.password" (from_env "JUPYTER_PASSWORD" (PStr ""));
  AssignIf (fun env => truthy (env_get env "JUPYTERHUB_API_TOKEN" PNone))
    [("ServerApp.disable_check_xsrf", const (PBool true))];
  Assign "ServerApp.root_dir" (from_env "JUPYTER_ROOT_DIR" (PStr "/home/jovyan"));
  Assign "ContentsManager.allow_hidden" (const (PBool true));
  Assign "FileContentsManager.pre_save_hook" (const (PObj "<lambda>"));
  Assign "ServerApp.allow_origin" (const (PStr "*"));
  Assign "ServerApp.allow_credentials" (const (PBool true));
  Assign "ServerApp.tornado_settings"
    (const (PDict [("headers", PDict [("Content-Security-Policy", PStr "frame-ancestors 'self' *")])]))].

(** Kernel, JupyterLab, performance, logging, extension, UI, collaboration,
    debug and notebook settings (lines 61-144). *)
Definition lab_kernel_and_rest : list stmt := [
  Assign "MappingKernelManager.cull_idle_timeout" (int_from_env "JUPYTER_KERNEL_TIMEOUT" (PInt 3600));
  Assign "MappingKernelManager.cull_interval" (const (PInt 300));
  Assign "MappingKernelManager.cull_connected" (const (PBool true));
  Assign "ServerApp.default_url" (const (PStr "/lab"));
  Assign "LabApp.check_for_updates_class" (const (PStr "jupyterlab.NeverCheckForUpdate"));
  Assign "LabApp.user_settings_dir" (root_dir_join ".jupyter/lab/user-settings");
  Assign "LabApp.workspaces_dir" (root_dir_join ".jupyter/lab/workspaces");
  Assign "ResourceUseDisplay.mem_limit" (int_from_env "MEM_LIMIT" (PInt 2147483648));
  Assign "ResourceUseDisplay.track_cpu_percent" (const (PBool true));
  Assign "Application.log_level" (from_env "JUPYTER_LOG_LEVEL" (PStr "INFO"));
  Assign "Application.log_format"
    (const (PStr "[%(levelname)1.1s %(asctime)s.%(msecs).03d %(name)s] %(message)s"));
  Assign "GitConfig.git_dir" (fun _ c => Ok (cfg_get c "ServerApp.root_dir"));
  Assign "LabApp.toc_extensions" (const (PList [PStr "markdown"; PStr "python"]));
  Assign "LabApp.default_theme" (from_env "JUPYTER_LAB_THEME" (PStr "JupyterLab Light"));
  Assign "ServerApp.shutdown_no_activity_timeout" (int_from_env "JUPYTER_SHUTDOWN_TIMEOUT" (PInt 0));
  AssignIf (fun env => env_flag env "JUPYTER_ENABLE_COLLABORATION" "false")
    [("LabApp.collaborative", const (PBool true));
     ("YDocExtension.ystore_class", const (PStr "jupyter_collaboration.stores.SQLiteYStore"))];
  AssignIf (fun env => env_flag env "JUPYTER_DEBUG" "false")
    [("Application.log_level", const (PStr "DEBUG"));
     ("ServerApp.allow_remote_access", const (PBool true))];
  Assign "NotebookNotary.db_file" (root_dir_join ".jupyter/nbsignatures.db");
  Assign "ContentsManager.autosave_interval" (const (PInt 120))].

Definition setup_warning (e : exn) : string :=
  "Warning: Could not set up user environment: " ++ exn_str e.

(** Lines 228-231: the guarded call of [setup_user_environment]. *)
Definition guarded_setup : stmt :=
  TryCall (fun env => setup_user_environment env user_home) setup_warning.

(** Lines 237-242: the startup banner. *)
Definition lab_script_tail : list stmt := [
  Emit (fun _ _ => repeat_str 50 "=");
  Emit (fun _ _ => "JupyterLab for kubeadm-python-cluster");
  Emit (fun env _ => "Python version: " ++ py_str (env_get env "PYTHON_VERSION" (PStr "Unknown")));
  Emit (fun env _ => "User: " ++ py_str (env_get env "NB_USER" (PStr "jovyan")));
  Emit (fun _ c => "Home directory: " ++ py_str (cfg_get c "ServerApp.root_dir"));
  Emit (fun _ _ => repeat_str 50 "=")].

Definition lab_script : list stmt := lab_server ++ lab_kernel_and_rest ++ [guarded_setup] ++ lab_script_tail.
End LabScript.

(** The initial process state: empty configuration, nothing printed. *)
Definition init_state (d : fs) : pstate := mkPState ∅ [] d.

(** A fresh home: [/], [/home] (not writable by the user) and [/home/jovyan]. *)
Definition fresh_home_fs : fs :=
  {[ [] := NDir false; ["home"] := NDir false; ["jovyan"; "home"] := NDir true ]}.
Definition jovyan_home : path := ["jovyan"; "home"].

(** The same tree with a read-only home directory. *)
Definition readonly_home_fs : fs :=
  {[ [] := NDir false; ["home"] := NDir false; ["jovyan"; "home"] := NDir false ]}.

(** The configuration keys a statement may assign under [env]. *)
Definition writes (env : environ) (s : stmt) (k : string) : bool :=
  match s with
  | Assign k' _ | AppendTo k' _ => String.eqb k k'
  | AssignIf cond body => existsb (fun ke => String.eqb k (fst ke)) body && cond env
  | Emit _ | TryCall _ _ => false
  end.

Definition script_keeps (env : environ) (prog : list stmt) (k : string) : bool :=
  forallb (fun s => negb (writes env s k)) prog.

(** Whether a profile entry carries [default: True] ([profile.get('default')]). *)
Definition dict_get (kvs : list (string * pyval)) (k : string) : option pyval :=
  match List.find (fun kv => String.eqb (fst kv) k) kvs with
  | Some kv => Some (snd kv)
  | None => None
  end.

Definition profile_is_default (p : pyval) : bool :=
  match p with
  | PDict kvs => match dict_get kvs "default" with Some v => truthy v | None => false end
  | _ => false
  end.

Definition profile_display_name (p : pyval) : option pyval :=
  match p with PDict kvs => dict_get kvs "display_name" | _ => None end.

(** The three settings of the TLS block (lines 235-238). *)
Definition tls_keys : list string :=
  ["JupyterHub.ssl_cert"; "JupyterHub.ssl_key"; "JupyterHub.redirect_to_server"].

(** A filesystem tree is well formed when the parent of every entry but the
    root is a directory of the tree. *)
Definition parent_ok (s : fs) (p : path) : bool :=
  match p with
  | [] => true
  | _ :: q => match s !! q with Some (NDir _) => true | _ => false end
  end.

Definition fs_wf (s : fs) : bool :=
  forallb (fun pn => parent_ok s (fst pn)) (map_to_list s).

(** [m] has run to completion on [t]: running it again there changes nothing. *)
Definition fs_done (m : M fs unit) (t : fs) : Prop :=
  forall t', t ⊆ t' -> fs_wf t' = true -> m t' = (t', Ok tt).

(** [m] only adds entries to a well-formed tree, and a second run on the
    tree it leaves behind ends the same way without changing it; once it
    has succeeded it stays done under further additions. *)
Definition settles (m : M fs unit) : Prop :=
  forall s s1 r, fs_wf s = true -> m s = (s1, r) ->
    fs_wf s1 = true /\ s ⊆ s1 /\ m s1 = (s1, r) /\ (r = Ok tt -> fs_done m s1).

(** A right-hand side that evaluates without raising, whatever the
    configuration read so far. *)
Definition rhs_total (env : environ) (e : rhs) : Prop :=
  forall c, exists v, e env c = Ok v.

(** A statement that cannot raise under [env] (an [append] is excluded: it
    depends on the value it appends to). *)
Definition stmt_total (env : environ) (s : stmt) : Prop :=
  match s with
  | Assign _ e => rhs_total env e
  | AssignIf _ body => Forall (fun ke => rhs_total env (snd ke)) body
  | AppendTo _ _ => False
  | Emit _ | TryCall _ _ => True
  end.

(** Statements that print nothing and leave the disk alone. *)
Definition quiet (s : stmt) : bool :=
  match s with Emit _ | TryCall _ _ => false | _ => true end.

(* ================================================================== *)
(** * Properties *)

(* ------------------------------------------------------------------ *)
(** ** Sequencing lemmas *)

Lemma bind_ok {S A B} (m : M S A) (k : A -> M S B) s s1 a :
  m s = (s1, Ok a) -> bind m k s = k a s1.
Proof. intros H. unfold bind. by rewrite H. Qed.

Lemma bind_raise {S A B} (m : M S A) (k : A -> M S B) s s1 e :
  m s = (s1, Raise e) -> bind m k s = (s1, Raise e).
Proof. intros H. unfold bind. by rewrite H. Qed.

Lemma exec_script_app env p1 p2 st :
  exec_script env (p1 ++ p2) st =
  bind (exec_script env p1) (fun _ => exec_script env p2) st.
Proof.
  unfold exec_script. revert st. induction p1 as [|s p1 IH]; intros st; simpl.
  - reflexivity.
  - unfold bind in *.
    destruct (exec_stmt env s st) as [st1 [u|e]]; [|reflexivity].
    apply IH.
Qed.

Lemma exec_script_app_ok env p1 p2 st st1 :
  exec_script env p1 st = (st1, Ok tt) ->
  exec_script env (p1 ++ p2) st = exec_script env p2 st1.
Proof. intros H. rewrite exec_script_app. unfold bind. by rewrite H. Qed.

Lemma exec_script_app_raise env p1 p2 st st1 e :
  exec_script env p1 st = (st1, Raise e) ->
  exec_script env (p1 ++ p2) st = (st1, Raise e).
Proof. intros H. rewrite exec_script_app. by apply bind_raise. Qed.

Lemma exec_script_app_inv env p1 p2 st st' :
  exec_script env (p1 ++ p2) st = (st', Ok tt) ->
  exists st1, exec_script env p1 st = (st1, Ok tt) /\ exec_script env p2 st1 = (st', Ok tt).
Proof.
  rewrite exec_script_app. unfold bind.
  destruct (exec_script env p1 st) as [st1 [[]|e]]; intros H; [eauto|discriminate].
Qed.

(** A statement that does not write [k] leaves [c !! k] alone, whatever its
    outcome. *)
Lemma exec_stmt_frame env s k st st' r :
  writes env s k = false -> exec_stmt env s st = (st', r) -> cfg st' !! k = cfg st !! k.
Proof.
  destruct s as [k' e|cond body|k' v|msg|f warn]; simpl; intros Hw Hx.
  - unfold exec_assign, bind, get, lift_outcome, set_cfg, modify in Hx; simpl in Hx.
    destruct (e env (cfg st)); inversion Hx; subst; simpl; [|done].
    apply lookup_insert_ne. intros ->. by rewrite String.eqb_refl in Hw.
  - destruct (cond env) eqn:Hc; [|by inversion Hx].
    rewrite andb_true_r in Hw. revert st Hx.
    induction body as [|[k' e] body IH]; simpl in *; intros st Hx.
    + by inversion Hx.
    + apply orb_false_iff in Hw as [Hk Hw].
      unfold bind at 1, exec_assign, bind, get, lift_outcome, set_cfg, modify in Hx; simpl in Hx.
      destruct (e env (cfg st)); [|by inversion Hx].
      rewrite (IH Hw _ Hx). simpl. apply lookup_insert_ne. intros ->.
      by rewrite String.eqb_refl in Hk.
  - unfold bind, get, set_cfg, modify, throw in Hx; simpl in Hx.
    destruct (cfg st !! k') as [[]|] eqn:Hk; inversion Hx; subst; try done.
    simpl. apply lookup_insert_ne. intros ->. by rewrite String.eqb_refl in Hw.
  - unfold bind, get, emit, modify in Hx. by inversion Hx.
  - unfold try_except, lift_fs, emit, modify in Hx.
    destruct (f env (disk st)) as [d [u|e]]; simpl in Hx; [by inversion Hx|].
    destruct (is_Exception e); by inversion Hx.
Qed.

Lemma exec_script_frame env prog k st st' r :
  script_keeps env prog k = true -> exec_script env prog st = (st', r) ->
  cfg st' !! k = cfg st !! k.
Proof.
  unfold exec_script. revert st. induction prog as [|s prog IH]; simpl; intros st Hk Hx.
  - by inversion Hx.
  - apply andb_true_iff in Hk as [Hs Hk]. apply negb_true_iff in Hs.
    unfold bind in Hx. destruct (exec_stmt env s st) as [st1 [u|e]] eqn:Hx1.
    + rewrite (IH _ Hk Hx). by eapply exec_stmt_frame.
    + inversion Hx; subst. by eapply exec_stmt_frame.
Qed.

(** After a completed evaluation, a key assigned once and never written
    again holds the value its right-hand side had at that point. *)
Lemma assign_survives env pre k e post st st' :
  exec_script env (pre ++ Assign k e :: post) st = (st', Ok tt) ->
  script_keeps env post k = true ->
  exists st1 v, exec_script env pre st = (st1, Ok tt) /\ e env (cfg st1) = Ok v /\
                cfg st' !! k = Some v.
Proof.
  intros Hx Hk. apply exec_script_app_inv in Hx as (st1 & H1 & H2).
  exists st1. unfold exec_script in H2; simpl in H2.
  unfold bind at 1, exec_assign, bind, get, lift_outcome, set_cfg, modify in H2; simpl in H2.
  destruct (e env (cfg st1)) as [v|ex] eqn:He; [|discriminate].
  exists v. split; [done|]. split; [done|].
  erewrite exec_script_frame; [| exact Hk | exact H2]. simpl. apply lookup_insert_eq.
Qed.

Lemma hub_config_at_profiles :
  hub_config =
  ((hub_basic ++ hub_kubernetes ++ hub_storage ++ hub_spawner_auth) ++
  Assign "KubeSpawner.profile_list" (const (PList profile_list)) ::
  (tail hub_profiles_services ++ [tls_block] ++ hub_settings_tail))%list.
Proof. reflexivity. Qed.

Lemma hub_config_at_volumes :
  hub_config =
  ((hub_basic ++ hub_kubernetes ++
   [Assign "KubeSpawner.pvc_name_template" (const (PStr "jupyterhub-user-{username}"));
    Assign "KubeSpawner.volume_mounts" (const (PList volume_mounts))]) ++
  Assign "KubeSpawner.volumes" (fun _ c => Ok (PList (volumes_of c))) ::
  (hub_spawner_auth ++ hub_profiles_services ++ [tls_block] ++ hub_settings_tail))%list.
Proof. reflexivity. Qed.

Lemma hub_config_at_mounts :
  hub_config =
  ((hub_basic ++ hub_kubernetes ++
   [Assign "KubeSpawner.pvc_name_template" (const (PStr "jupyterhub-user-{username}"))]) ++
  Assign "KubeSpawner.volume_mounts" (const (PList volume_mounts)) ::
  (Assign "KubeSpawner.volumes" (fun _ c => Ok (PList (volumes_of c))) ::
   hub_spawner_auth ++ hub_profiles_services ++ [tls_block] ++ hub_settings_tail))%list.
Proof. reflexivity. Qed.

Lemma hub_config_at_pvc :
  hub_config =
  ((hub_basic ++ hub_kubernetes) ++
  Assign "KubeSpawner.pvc_name_template" (const (PStr "jupyterhub-user-{username}")) ::
  (tail hub_storage ++ hub_spawner_auth ++ hub_profiles_services ++ [tls_block] ++ hub_settings_tail))%list.
Proof. reflexivity. Qed.

(* ------------------------------------------------------------------ *)
(** ** Evaluations that complete *)

Lemma for_each_assign_total env body st :
  Forall (fun ke => rhs_total env (snd ke)) body ->
  exists st', for_each body (exec_assign env) st = (st', Ok tt).
Proof.
  revert st. induction body as [|[k e] body IH]; intros st Hb; simpl.
  - by eexists.
  - apply Forall_cons in Hb as [He Hb]. destruct (He (cfg st)) as [v Hv]. simpl in Hv.
    unfold bind at 1, exec_assign, bind, get, lift_outcome, set_cfg, modify. simpl.
    rewrite Hv. apply IH, Hb.
Qed.

Lemma exec_stmt_total env s st :
  stmt_total env s -> exists st', exec_stmt env s st = (st', Ok tt).
Proof.
  destruct s as [k e|cond body|k v|msg|f warn]; simpl; intros H.
  - destruct (H (cfg st)) as [v Hv].
    unfold exec_assign, bind, get, lift_outcome, set_cfg, modify. simpl. rewrite Hv. by eexists.
  - destruct (cond env); [by apply for_each_assign_total | by eexists].
  - done.
  - by eexists.
  - unfold try_except, lift_fs. destruct (f env (disk st)) as [d [[]|e]].
    + by eexists.
    + destruct e; simpl; by eexists.
Qed.

Lemma exec_script_total env prog st :
  Forall (stmt_total env) prog -> exists st', exec_script env prog st = (st', Ok tt).
Proof.
  unfold exec_script. revert st. induction prog as [|s prog IH]; intros st H; simpl.
  - by eexists.
  - apply Forall_cons in H as [Hs H].
    destruct (exec_stmt_total env s st Hs) as [st1 H1].
    unfold bind at 1. rewrite H1. apply IH, H.
Qed.

Lemma const_total env v : rhs_total env (const v).
Proof. intros c. by eexists. Qed.

Lemma from_env_total env k d : rhs_total env (from_env k d).
Proof. intros c. by eexists. Qed.

Ltac solve_total :=
  repeat (apply Forall_cons; split); try apply Forall_nil; simpl;
  try exact I;
  repeat (apply Forall_cons; split); try apply Forall_nil; simpl;
  try (intros ?c; eexists; reflexivity).

(* ------------------------------------------------------------------ *)
(** ** How far the hub script gets *)

Lemma hub_script_split : hub_script = (hub_config ++ hub_startup)%list.
Proof. reflexivity. Qed.

(** The statements before line 285 complete whenever [float()] accepts the
    two CPU settings (or their defaults apply). *)
Lemma hub_config_completes env st :
  (exists f, py_float (env_get env "JUPYTERHUB_CPU_LIMIT" (PStr "1.0")) = Ok f) ->
  (exists f, py_float (env_get env "JUPYTERHUB_CPU_GUARANTEE" (PStr "0.5")) = Ok f) ->
  exists st1, exec_script env hub_config st = (st1, Ok tt).
Proof.
  intros [f1 H1] [f2 H2]. apply exec_script_total. unfold hub_config. simpl. solve_total.
  - intros c. unfold float_from_env. rewrite H1. by eexists.
  - intros c. unfold float_from_env. rewrite H2. by eexists.
Qed.

(** Line 285 stores the [LazyConfigValue] and raises: nothing after it runs. *)
Lemma hub_startup_run env st :
  exec_script env hub_startup st =
  (mkPState (<["JupyterHub.log" := config_getitem (cfg st) "JupyterHub.log"]> (cfg st))
     (out st) (disk st), Raise log_info_error).
Proof. reflexivity. Qed.

(** Every key but [JupyterHub.log] ends as the statements before line 285
    leave it. *)
Lemma hub_final_from_config env st st1 k :
  exec_script env hub_config st = (st1, Ok tt) -> k <> "JupyterHub.log" ->
  cfg (fst (exec_script env hub_script st)) !! k = cfg st1 !! k.
Proof.
  intros Hx Hk. rewrite hub_script_split, (exec_script_app_ok _ _ _ _ _ Hx), hub_startup_run.
  simpl. apply lookup_insert_ne. congruence.
Qed.

(* ------------------------------------------------------------------ *)
(** ** C1: the profile list *)

(** A run whose outcome is [Ok] is the pair of its final state and [Ok]. *)
Lemma run_completed env p st :
  snd (exec_script env p st) = Ok tt -> exec_script env p st = (fst (exec_script env p st), Ok tt).
Proof. destruct (exec_script env p st) as [st' r]. simpl. by intros ->. Qed.

(** C1. The literal profile list assigned to [c.KubeSpawner.profile_list] has
    exactly five entries, exactly one of them is flagged [default: True] (the
    ['Python 3.11 (Default)'] entry), and the five display names are pairwise
    distinct; whenever [float()] accepts the two CPU settings (lines 44 and
    46), so that the evaluation of the hub script gets past them, the
    configuration it leaves holds exactly this list in
    [c.KubeSpawner.profile_list]. *)
Theorem profile_list_single_default :
  length profile_list = 5 /\
  map profile_display_name (filter profile_is_default profile_list) =
    [Some (PStr "Python 3.11 (Default)")] /\
  (exists names : list string,
     map profile_display_name profile_list = map (fun n => Some (PStr n)) names /\
     NoDup names) /\
  (forall env st,
     (exists f, py_float (env_get env "JUPYTERHUB_CPU_LIMIT" (PStr "1.0")) = Ok f) ->
     (exists f, py_float (env_get env "JUPYTERHUB_CPU_GUARANTEE" (PStr "0.5")) = Ok f) ->
     cfg (fst (exec_script env hub_script st)) !! "KubeSpawner.profile_list" =
       Some (PList profile_list)).
Proof.
  split; [reflexivity|]. split; [reflexivity|]. split.
  - exists ["Python 3.11 (Default)"; "Python 3.10"; "Python 3.9"; "Python 3.8 (Legacy)";
            "High-Performance Computing"].
    split; [reflexivity|]. apply (bool_decide_unpack _). vm_compute. reflexivity.
  - intros env st Hl Hg. destruct (hub_config_completes env st Hl Hg) as [st' Hx].
    rewrite (hub_final_from_config _ _ _ "KubeSpawner.profile_list" Hx) by discriminate.
    rewrite hub_config_at_profiles in Hx.
    apply assign_survives in Hx as (st1 & v & _ & Hv & Hk); [|reflexivity].
    unfold const in Hv. inversion Hv; subst. exact Hk.
Qed.

(** Witness: the hub script evaluated with no environment variables set. *)
Lemma profile_list_single_default_witness :
  cfg (fst (exec_script ∅ hub_script (init_state ∅))) !! "KubeSpawner.profile_list" =
  Some (PList profile_list).
Proof.
  destruct profile_list_single_default as (_ & _ & _ & H).
  apply (H ∅ (init_state ∅)); eexists; reflexivity.
Defined.

(* ------------------------------------------------------------------ *)
(** ** C8: volumes and mounts *)

(** C8. Whenever [float()] accepts the two CPU settings (lines 44 and 46),
    so that the evaluation of the hub script gets past them, in the
    configuration it leaves [c.KubeSpawner.pvc_name_template] is ['jupyterhub-user-{username}'],
    [c.KubeSpawner.volumes] holds exactly one volume, named ['home'], whose
    [persistentVolumeClaim.claimName] is that template, and
    [c.KubeSpawner.volume_mounts] holds exactly one mount, named ['home'],
    mounted at ['/home/jovyan']. *)
Theorem volumes_mounts_paired env st :
  (exists f, py_float (env_get env "JUPYTERHUB_CPU_LIMIT" (PStr "1.0")) = Ok f) ->
  (exists f, py_float (env_get env "JUPYTERHUB_CPU_GUARANTEE" (PStr "0.5")) = Ok f) ->
  cfg (fst (exec_script env hub_script st)) !! "KubeSpawner.pvc_name_template" =
    Some (PStr "jupyterhub-user-{username}") /\
  cfg (fst (exec_script env hub_script st)) !! "KubeSpawner.volumes" =
    Some (PList [PDict [("name", PStr "home");
                        ("persistentVolumeClaim",
                           PDict [("claimName", PStr "jupyterhub-user-{username}")])]]) /\
  (exists extra,
     cfg (fst (exec_script env hub_script st)) !! "KubeSpawner.volume_mounts" =
       Some (PList [PDict ([("name", PStr "home"); ("mountPath", PStr "/home/jovyan")] ++ extra)])).
Proof.
  intros Hl Hg. destruct (hub_config_completes env st Hl Hg) as [st' Hx].
  rewrite (hub_final_from_config _ _ _ "KubeSpawner.pvc_name_template" Hx),
    (hub_final_from_config _ _ _ "KubeSpawner.volumes" Hx),
    (hub_final_from_config _ _ _ "KubeSpawner.volume_mounts" Hx) by discriminate.
  split; [|split].
  - pose proof Hx as H. rewrite hub_config_at_pvc in H.
    apply assign_survives in H as (st1 & v & _ & Hv & Hk); [|reflexivity].
    inversion Hv; subst. exact Hk.
  - pose proof Hx as H. rewrite hub_config_at_volumes in H.
    apply assign_survives in H as (st1 & v & Hpre & Hv & Hk); [|reflexivity].
    rewrite Hk. inversion Hv; subst. clear Hv Hk.
    rewrite app_assoc in Hpre. apply exec_script_app_inv in Hpre as (st0 & _ & H2).
    unfold exec_script in H2. simpl in H2.
    unfold bind, exec_assign, bind, get, lift_outcome, set_cfg, modify, ret in H2.
    simpl in H2. inversion H2; subst. simpl.
    unfold volumes_of, cfg_get. rewrite lookup_insert_ne by done.
    rewrite lookup_insert_eq. reflexivity.
  - pose proof Hx as H. rewrite hub_config_at_mounts in H.
    apply assign_survives in H as (st1 & v & _ & Hv & Hk); [|reflexivity].
    inversion Hv; subst. rewrite Hk. eexists. reflexivity.
Qed.

Lemma volumes_mounts_paired_witness :
  cfg (fst (exec_script ∅ hub_script (init_state ∅))) !! "KubeSpawner.volumes" =
    Some (PList [PDict [("name", PStr "home");
                        ("persistentVolumeClaim",
                           PDict [("claimName", PStr "jupyterhub-user-{username}")])]]).
Proof.
  apply (volumes_mounts_paired ∅ (init_state ∅)); eexists; reflexivity.
Defined.

(** An assignment reached by a normal evaluation of its prefix survives to the
    end of the script, whatever the later statements raise. *)
Lemma assign_persists env pre k e post st st1 v :
  exec_script env pre st = (st1, Ok tt) -> e env (cfg st1) = Ok v ->
  script_keeps env post k = true ->
  cfg (fst (exec_script env (pre ++ Assign k e :: post) st)) !! k = Some v.
Proof.
  intros H1 He Hk. rewrite (exec_script_app_ok _ _ _ _ _ H1).
  unfold exec_script at 1; simpl.
  unfold bind at 1, exec_assign, bind, get, lift_outcome, set_cfg, modify. simpl.
  rewrite He. simpl. fold (exec_script env post).
  destruct (exec_script env post _) as [st' r] eqn:Hx. simpl.
  erewrite exec_script_frame; [| exact Hk | exact Hx]. simpl. apply lookup_insert_eq.
Qed.

Lemma hub_script_at_admin :
  hub_script =
  (firstn 5 hub_basic ++
   Assign "Authenticator.admin_users" (fun env _ => Ok (PSet (admin_users_of env))) ::
   (hub_kubernetes ++ hub_storage ++ hub_spawner_auth ++ hub_profiles_services ++
    [tls_block] ++ hub_script_tail))%list.
Proof. reflexivity. Qed.

Lemma hub_admin_prefix_ok env st :
  exists st1, exec_script env (firstn 5 hub_basic) st = (st1, Ok tt).
Proof. eexists. reflexivity. Qed.

Lemma hub_admin_users_final env st :
  cfg (fst (exec_script env hub_script st)) !! "Authenticator.admin_users" =
  Some (PSet (admin_users_of env)).
Proof.
  destruct (hub_admin_prefix_ok env st) as [st1 H1].
  rewrite hub_script_at_admin. eapply assign_persists; [exact H1 | reflexivity | reflexivity].
Qed.

Lemma split_on_nonempty sep s : split_on sep s <> [].
Proof.
  destruct s as [|c s]; simpl; [done|].
  destruct (char_eqb c sep); [done|]. by destruct (split_on sep s).
Qed.

(** [sep.join(s.split(sep)) == s] *)
Lemma join_split_on sep s : join (String sep EmptyString) (split_on sep s) = s.
Proof.
  unfold join. induction s as [|c s IH]; [reflexivity|]. simpl.
  destruct (char_eqb c sep) eqn:Hc.
  - apply Ascii.eqb_eq in Hc; subst c.
    pose proof (split_on_nonempty sep s) as Hne.
    destruct (split_on sep s) as [|h t] eqn:Hs; [done|]. simpl. by rewrite <- IH.
  - pose proof (split_on_nonempty sep s) as Hne.
    destruct (split_on sep s) as [|h t] eqn:Hs; [done|].
    destruct t as [|h' t]; simpl in *; by rewrite <- IH.
Qed.

(** No piece of [s.split(sep)] contains [sep]. *)
Lemma split_on_pieces_free sep s :
  Forall (fun x => existsb (fun ch => char_eqb ch sep) (list_ascii_of_string x) = false)
         (split_on sep s).
Proof.
  induction s as [|c s IH]; simpl; [by constructor|].
  destruct (char_eqb c sep) eqn:Hc.
  - constructor; [reflexivity | exact IH].
  - destruct (split_on sep s) as [|h t] eqn:Hs.
    + constructor; [simpl; by rewrite Hc | constructor].
    + inversion IH; subst. constructor; [simpl; by rewrite Hc | done].
Qed.

(* ------------------------------------------------------------------ *)
(** ** C6 and C10: the admin-user set *)

(** C6. For every environment, evaluating the hub script leaves in
    [c.Authenticator.admin_users] the set of the pieces of
    [JUPYTERHUB_ADMIN_USERS] split on commas (pieces that contain no comma
    and joined with commas give back the value), and [{'admin'}] when the
    variable is unset. *)
Theorem admin_users_from_env env st :
  cfg (fst (exec_script env hub_script st)) !! "Authenticator.admin_users" =
    Some (PSet (admin_users_of env)) /\
  (forall v, env !! "JUPYTERHUB_ADMIN_USERS" = Some v ->
     exists pieces : list string,
       admin_users_of env = list_to_set pieces /\ join "," pieces = v /\
       Forall (fun x => existsb (fun ch => char_eqb ch ",") (list_ascii_of_string x) = false)
              pieces) /\
  (env !! "JUPYTERHUB_ADMIN_USERS" = None -> admin_users_of env = {["admin"]}).
Proof.
  split; [apply hub_admin_users_final|]. split.
  - intros v Hv. exists (split_on "," v). unfold admin_users_of. rewrite Hv.
    split; [reflexivity|]. split; [apply join_split_on | apply split_on_pieces_free].
  - intros Hv. unfold admin_users_of. rewrite Hv. reflexivity.
Qed.

Lemma admin_users_from_env_witness :
  (exists pieces : list string,
     admin_users_of {["JUPYTERHUB_ADMIN_USERS" := "alice,bob"]} = list_to_set pieces /\
     join "," pieces = "alice,bob") /\
  admin_users_of ∅ = {["admin"]}.
Proof.
  split.
  - destruct (admin_users_from_env {["JUPYTERHUB_ADMIN_USERS" := "alice,bob"]} (init_state ∅))
      as (_ & H & _).
    destruct (H "alice,bob") as (pieces & Hp & Hj & _); [reflexivity|].
    exists pieces. split; [exact Hp | exact Hj].
  - destruct (admin_users_from_env ∅ (init_state ∅)) as (_ & _ & H). apply H. reflexivity.
Defined.

(** C10. When [JUPYTERHUB_ADMIN_USERS] is set to the empty string, the hub
    script leaves [c.Authenticator.admin_users = {''}]: neither the empty set
    nor the default [{'admin'}]. *)
Theorem admin_users_empty_string env st :
  env !! "JUPYTERHUB_ADMIN_USERS" = Some "" ->
  cfg (fst (exec_script env hub_script st)) !! "Authenticator.admin_users" =
    Some (PSet {[""]}) /\
  ({[""]} : gset string) <> ∅ /\ ({[""]} : gset string) <> {["admin"]}.
Proof.
  intros Hv. rewrite hub_admin_users_final. unfold admin_users_of. rewrite Hv.
  split; [reflexivity|]. split; [set_solver|].
  intros Heq. assert (Hin : "" ∈ ({["admin"]} : gset string)) by (rewrite <- Heq; set_solver).
  apply elem_of_singleton in Hin. discriminate.
Qed.

Lemma admin_users_empty_string_witness :
  cfg (fst (exec_script {["JUPYTERHUB_ADMIN_USERS" := ""]} hub_script (init_state ∅)))
    !! "Authenticator.admin_users" = Some (PSet {[""]}).
Proof. apply (admin_users_empty_string _ (init_state ∅)). reflexivity. Defined.

(* ------------------------------------------------------------------ *)
(** ** C7: the TLS settings *)

Lemma hub_config_at_tls :
  hub_config =
  ((hub_basic ++ hub_kubernetes ++ hub_storage ++ hub_spawner_auth ++ hub_profiles_services) ++
   [tls_block] ++ hub_settings_tail)%list.
Proof. reflexivity. Qed.

(** C7. If [JUPYTERHUB_SSL_CERT] is set to a non-empty value and [float()]
    accepts the two CPU settings (lines 44 and 46), so that the evaluation
    of the hub script reaches the TLS block, the configuration it leaves has
    [c.JupyterHub.ssl_cert] and
    [c.JupyterHub.ssl_key] equal to [os.environ.get] of the two variables and
    [c.JupyterHub.redirect_to_server] equal to [False]; if it is unset or
    empty, the script does not assign any of the three settings, which keep
    their prior values whatever the outcome of the evaluation. *)
Theorem tls_settings_conditional env st :
  (forall cert, env !! "JUPYTERHUB_SSL_CERT" = Some cert -> cert <> "" ->
     (exists f, py_float (env_get env "JUPYTERHUB_CPU_LIMIT" (PStr "1.0")) = Ok f) ->
     (exists f, py_float (env_get env "JUPYTERHUB_CPU_GUARANTEE" (PStr "0.5")) = Ok f) ->
     cfg (fst (exec_script env hub_script st)) !! "JupyterHub.ssl_cert" = Some (PStr cert) /\
     cfg (fst (exec_script env hub_script st)) !! "JupyterHub.ssl_key" =
       Some (env_get env "JUPYTERHUB_SSL_KEY" PNone) /\
     cfg (fst (exec_script env hub_script st)) !! "JupyterHub.redirect_to_server" =
       Some (PBool false)) /\
  ((env !! "JUPYTERHUB_SSL_CERT" = None \/ env !! "JUPYTERHUB_SSL_CERT" = Some "") ->
     forall k, k ∈ tls_keys ->
     cfg (fst (exec_script env hub_script st)) !! k = cfg st !! k).
Proof.
  split.
  - intros cert Hc Hne Hl Hg. destruct (hub_config_completes env st Hl Hg) as [st' Hx].
    rewrite (hub_final_from_config _ _ _ "JupyterHub.ssl_cert" Hx),
      (hub_final_from_config _ _ _ "JupyterHub.ssl_key" Hx),
      (hub_final_from_config _ _ _ "JupyterHub.redirect_to_server" Hx) by discriminate.
    rewrite hub_config_at_tls in Hx.
    apply exec_script_app_inv in Hx as (st1 & _ & Hx).
    apply exec_script_app_inv in Hx as (st2 & Htls & Htail).
    assert (Hcond : truthy (env_get env "JUPYTERHUB_SSL_CERT" PNone) = true).
    { unfold env_get. rewrite Hc. simpl. apply negb_true_iff, String.eqb_neq. exact Hne. }
    unfold exec_script in Htls. simpl in Htls. rewrite Hcond in Htls.
    unfold bind, exec_assign, bind, get, lift_outcome, set_cfg, modify, ret, from_env, const
      in Htls.
    simpl in Htls. inversion Htls; subst st2. clear Htls.
    pose proof (fun k Hk => exec_script_frame _ _ k _ _ _ Hk Htail) as Hf.
    repeat split; (rewrite Hf; [|reflexivity]); simpl;
      unfold env_get; rewrite ?Hc; simplify_map_eq; reflexivity.
  - intros Hc k Hk. destruct (exec_script env hub_script st) as [st' r] eqn:Hx. simpl.
    eapply exec_script_frame; [| exact Hx].
    assert (Hcond : truthy (env_get env "JUPYTERHUB_SSL_CERT" PNone) = false).
    { unfold env_get. by destruct Hc as [-> | ->]. }
    unfold tls_keys in Hk. rewrite !elem_of_cons, elem_of_nil in Hk.
    unfold script_keeps, hub_script; simpl. unfold tls_block. simpl.
    rewrite Hcond.
    destruct Hk as [->|[->|[->|[]]]]; reflexivity.
Qed.

Lemma tls_settings_conditional_witness :
  cfg (fst (exec_script {["JUPYTERHUB_SSL_CERT" := "/etc/tls/hub.crt";
                          "JUPYTERHUB_SSL_KEY" := "/etc/tls/hub.key"]}
                        hub_script (init_state ∅))) !! "JupyterHub.ssl_cert" =
    Some (PStr "/etc/tls/hub.crt") /\
  cfg (fst (exec_script ∅ hub_script (init_state ∅))) !! "JupyterHub.ssl_cert" = None.
Proof.
  split.
  - destruct (tls_settings_conditional {["JUPYTERHUB_SSL_CERT" := "/etc/tls/hub.crt";
                                         "JUPYTERHUB_SSL_KEY" := "/etc/tls/hub.key"]}
                (init_state ∅)) as [H _].
    edestruct H as [Hcert _];
      [reflexivity | discriminate | eexists; reflexivity | eexists; reflexivity |].
    exact Hcert.
  - destruct (tls_settings_conditional ∅ (init_state ∅)) as [_ H].
    rewrite (H (or_introl eq_refl)); [reflexivity | left].
Defined.

(* ------------------------------------------------------------------ *)
(** ** Numeric conversions *)

Lemma digit_not_space c : is_digit c = true -> is_space c = false.
Proof. destruct c as [[] [] [] [] [] [] [] []]; done. Qed.

Lemma digit_not_underscore c : is_digit c = true -> char_eqb c "_"%char = false.
Proof. destruct c as [[] [] [] [] [] [] [] []]; done. Qed.

Lemma drop_spaces_digits cs : all_digits cs = true -> drop_spaces cs = cs.
Proof.
  destruct cs as [|c cs]; simpl; [done|]. intros H.
  apply andb_true_iff in H as [Hc _]. by rewrite digit_not_space.
Qed.

Lemma all_digits_rev cs : all_digits (rev cs) = all_digits cs.
Proof.
  unfold all_digits. induction cs as [|c cs IH]; simpl; [done|].
  rewrite forallb_app, IH. simpl. by rewrite andb_true_r, andb_comm.
Qed.

Lemma strip_digits cs : all_digits cs = true -> strip cs = cs.
Proof.
  intros H. unfold strip. rewrite (drop_spaces_digits cs H).
  rewrite (drop_spaces_digits (rev cs)) by (rewrite all_digits_rev; exact H).
  apply rev_involutive.
Qed.

Lemma remove_underscores_digits prev cs :
  all_digits cs = true -> remove_underscores prev cs = Some cs.
Proof.
  revert prev. induction cs as [|c cs IH]; intros prev H; simpl; [done|].
  apply andb_true_iff in H as [Hc H]. rewrite digit_not_underscore by done.
  by rewrite IH.
Qed.

Lemma parse_signed_digits_digits c cs :
  all_digits (c :: cs) = true -> parse_signed_digits (c :: cs) = Some (false, c :: cs).
Proof.
  intros H. pose proof H as H'. simpl in H'. apply andb_true_iff in H' as [Hc _].
  unfold parse_signed_digits.
  destruct c as [[] [] [] [] [] [] [] []]; try discriminate Hc; simpl in *; by rewrite H.
Qed.

(** [int(s)] of a non-empty string of decimal digits is its value, as long
    as the digit count is within [sys.get_int_max_str_digits()]. *)
Lemma py_int_of_decimal lim s :
  list_ascii_of_string s <> [] -> all_digits (list_ascii_of_string s) = true ->
  (lim = 0 \/ length (list_ascii_of_string s) <= lim)%nat ->
  py_int_of_string lim s = Ok (digits_value (list_ascii_of_string s)).
Proof.
  intros Hne Hd Hlim. unfold py_int_of_string.
  rewrite strip_digits by done. rewrite remove_underscores_digits by done.
  destruct (list_ascii_of_string s) as [|c cs] eqn:Hs; [done|].
  rewrite parse_signed_digits_digits by done.
  replace ((0 <? lim)%nat && (lim <? length (c :: cs))%nat) with false; [reflexivity|].
  symmetry. apply andb_false_iff. destruct Hlim as [->|Hle]; [by left|right].
  apply Nat.ltb_ge. exact Hle.
Qed.

Lemma py_int_of_string_raise lim s e :
  py_int_of_string lim s = Raise e -> exists msg, e = ValueError msg.
Proof.
  unfold py_int_of_string. intros H.
  destruct (remove_underscores None _) as [cs|]; [|inversion H; eauto].
  destruct (parse_signed_digits cs) as [[neg ds]|]; [|inversion H; eauto].
  destruct (_ && _); inversion H; eauto.
Qed.

Lemma py_float_of_string_raise s e :
  py_float_of_string s = Raise e -> exists msg, e = ValueError msg.
Proof.
  unfold py_float_of_string. intros H.
  destruct (remove_underscores None _) as [cs|]; [|inversion H; eauto].
  destruct (parse_float_body cs); inversion H; eauto.
Qed.

Lemma int_from_env_raise lim k d env c e :
  (exists z, d = PInt z) \/ (exists s, d = PStr s) ->
  int_from_env lim k d env c = Raise e -> exists msg, e = ValueError msg.
Proof.
  unfold int_from_env, env_get. intros Hd.
  destruct (env !! k) as [s|].
  - simpl. destruct (py_int_of_string lim s) eqn:Hp; intros H; inversion H; subst.
    by eapply py_int_of_string_raise.
  - destruct Hd as [Hd|[s ->]].
    + destruct Hd as [z ->]. discriminate.
    + simpl. destruct (py_int_of_string lim s) eqn:Hp; intros H; inversion H; subst.
      by eapply py_int_of_string_raise.
Qed.

Lemma float_from_env_raise k d env c e :
  float_from_env k d env c = Raise e -> exists msg, e = ValueError msg.
Proof.
  unfold float_from_env, env_get.
  destruct (env !! k) as [s|]; simpl;
    [destruct (py_float_of_string s) eqn:Hp | destruct (py_float_of_string d) eqn:Hp];
    intros H; inversion H; subst; by eapply py_float_of_string_raise.
Qed.

(** A raise in a statement whose prefix evaluated normally ends the script
    with that exception. *)
Lemma assign_raises env pre k e post st st1 ex :
  exec_script env pre st = (st1, Ok tt) -> e env (cfg st1) = Raise ex ->
  snd (exec_script env (pre ++ Assign k e :: post) st) = Raise ex.
Proof.
  intros H1 He. rewrite (exec_script_app_ok _ _ _ _ _ H1).
  unfold exec_script at 1; simpl.
  unfold bind at 1, exec_assign, bind, get, lift_outcome. simpl. by rewrite He.
Qed.

Lemma lab_script_at_port lim home :
  lab_script lim home =
  ([Assign "ServerApp.ip" (const (PStr "0.0.0.0"))] ++
   Assign "ServerApp.port" (int_from_env lim "JUPYTER_PORT" (PInt 8888)) ::
   (tail (tail (lab_server lim)) ++ lab_kernel_and_rest lim ++ [guarded_setup home] ++
    lab_script_tail))%list.
Proof. reflexivity. Qed.

(* ------------------------------------------------------------------ *)
(** ** C5: the server port *)

(** C5 (amended). With [JUPYTER_PORT] unset, the lab script leaves
    [c.ServerApp.port = 8888]; with [JUPYTER_PORT] set to a non-empty string
    of decimal digits whose length is within the interpreter's
    [sys.get_int_max_str_digits()] (or with that limit disabled), it leaves
    the numeral's integer value. *)
Theorem lab_port_from_env lim home env st :
  (env !! "JUPYTER_PORT" = None ->
   cfg (fst (exec_script env (lab_script lim home) st)) !! "ServerApp.port" = Some (PInt 8888)) /\
  (forall s, env !! "JUPYTER_PORT" = Some s ->
   list_ascii_of_string s <> [] -> all_digits (list_ascii_of_string s) = true ->
   (lim = 0 \/ length (list_ascii_of_string s) <= lim)%nat ->
   cfg (fst (exec_script env (lab_script lim home) st)) !! "ServerApp.port" =
     Some (PInt (digits_value (list_ascii_of_string s)))).
Proof.
  split.
  - intros Hp. rewrite lab_script_at_port.
    eapply assign_persists; [reflexivity | | reflexivity].
    unfold int_from_env, env_get. rewrite Hp. reflexivity.
  - intros s Hp Hne Hd Hlim. rewrite lab_script_at_port.
    eapply assign_persists; [reflexivity | | reflexivity].
    unfold int_from_env, env_get. rewrite Hp. simpl.
    by rewrite py_int_of_decimal.
Qed.

Lemma lab_port_from_env_witness :
  cfg (fst (exec_script {["JUPYTER_PORT" := "9999"]} (lab_script 4300 jovyan_home)
                        (init_state fresh_home_fs))) !! "ServerApp.port" = Some (PInt 9999) /\
  cfg (fst (exec_script ∅ (lab_script 4300 jovyan_home)
                        (init_state fresh_home_fs))) !! "ServerApp.port" = Some (PInt 8888).
Proof.
  split.
  - destruct (lab_port_from_env 4300 jovyan_home {["JUPYTER_PORT" := "9999"]}
                (init_state fresh_home_fs)) as [_ H].
    apply (H "9999"); [reflexivity | discriminate | reflexivity | right; simpl; lia].
  - destruct (lab_port_from_env 4300 jovyan_home ∅ (init_state fresh_home_fs)) as [H _].
    apply H. reflexivity.
Defined.

(** C5 counterexample: under CPython's default limit of 4300 digits,
    [JUPYTER_PORT] set to the 4301-digit numeral [10...0] is a string of
    decimal digits, yet [int()] raises [ValueError] at line 13 and
    [c.ServerApp.port] is never assigned. *)
Lemma lab_port_digit_limit_counterexample :
  let big := String "1" (repeat_str 4300 "0") in
  all_digits (list_ascii_of_string big) = true /\
  cfg (fst (exec_script {["JUPYTER_PORT" := big]} (lab_script 4300 jovyan_home)
                        (init_state fresh_home_fs))) !! "ServerApp.port" = None /\
  snd (exec_script {["JUPYTER_PORT" := big]} (lab_script 4300 jovyan_home)
                   (init_state fresh_home_fs)) =
    Raise (ValueError "Exceeds the limit for integer string conversion").
Proof. vm_compute. split; [reflexivity | split; reflexivity]. Qed.

(* ------------------------------------------------------------------ *)
(** ** C9: unguarded numeric conversions *)

Lemma exec_script_assign_cons env k e post st :
  exec_script env (Assign k e :: post) st =
  match e env (cfg st) with
  | Ok v => exec_script env post (mkPState (<[k := v]> (cfg st)) (out st) (disk st))
  | Raise ex => (st, Raise ex)
  end.
Proof.
  unfold exec_script at 1; simpl.
  unfold bind at 1, exec_assign, bind, get, lift_outcome, set_cfg, modify. simpl.
  by destruct (e env (cfg st)).
Qed.

Lemma hub_script_at_cpu_limit :
  hub_script =
  ((hub_basic ++ firstn 4 hub_kubernetes) ++
   Assign "KubeSpawner.cpu_limit" (float_from_env "JUPYTERHUB_CPU_LIMIT" "1.0") ::
   (skipn 5 hub_kubernetes ++ hub_storage ++ hub_spawner_auth ++ hub_profiles_services ++
    [tls_block] ++ hub_script_tail))%list.
Proof. reflexivity. Qed.

Lemma hub_script_at_cpu_guarantee :
  hub_script =
  ((hub_basic ++ firstn 4 hub_kubernetes) ++
   Assign "KubeSpawner.cpu_limit" (float_from_env "JUPYTERHUB_CPU_LIMIT" "1.0") ::
   Assign "KubeSpawner.mem_limit" (from_env "JUPYTERHUB_MEM_LIMIT" (PStr "2G")) ::
   Assign "KubeSpawner.cpu_guarantee" (float_from_env "JUPYTERHUB_CPU_GUARANTEE" "0.5") ::
   (skipn 7 hub_kubernetes ++ hub_storage ++ hub_spawner_auth ++ hub_profiles_services ++
    [tls_block] ++ hub_script_tail))%list.
Proof. reflexivity. Qed.

Lemma lab_script_at_kernel_timeout lim home :
  lab_script lim home =
  (lab_server lim ++
   Assign "MappingKernelManager.cull_idle_timeout"
     (int_from_env lim "JUPYTER_KERNEL_TIMEOUT" (PInt 3600)) ::
   (tail (lab_kernel_and_rest lim) ++ [guarded_setup home] ++ lab_script_tail))%list.
Proof. reflexivity. Qed.

Lemma hub_prefix_ok env st :
  exists st1, exec_script env (hub_basic ++ firstn 4 hub_kubernetes) st = (st1, Ok tt).
Proof. eexists. reflexivity. Qed.

Lemma lab_server_middle_ok lim env st :
  exists st1, exec_script env (firstn 5 (tail (tail (lab_server lim)))) st = (st1, Ok tt).
Proof. eexists. reflexivity. Qed.

(** The server section of the lab script either completes or raises the
    [ValueError] of [int(JUPYTER_PORT)]. *)
Lemma lab_server_outcome lim env st :
  (exists st1, exec_script env (lab_server lim) st = (st1, Ok tt)) \/
  (exists st1 msg, exec_script env (lab_server lim) st = (st1, Raise (ValueError msg))).
Proof.
  change (lab_server lim) with
    ([Assign "ServerApp.ip" (const (PStr "0.0.0.0"))] ++
     Assign "ServerApp.port" (int_from_env lim "JUPYTER_PORT" (PInt 8888)) ::
     tail (tail (lab_server lim)))%list.
  rewrite (exec_script_app_ok env _ _ st (mkPState (<["ServerApp.ip" := PStr "0.0.0.0"]> (cfg st))
    (out st) (disk st))); [|reflexivity].
  rewrite exec_script_assign_cons.
  destruct (int_from_env lim "JUPYTER_PORT" (PInt 8888) env _) as [v|ex] eqn:Hi.
  - left.
    change (tail (tail (lab_server lim))) with
      (firstn 5 (tail (tail (lab_server lim))) ++
       AssignIf (fun env => truthy (env_get env "JUPYTERHUB_API_TOKEN" PNone))
         [("ServerApp.disable_check_xsrf", const (PBool true))] ::
       skipn 6 (tail (tail (lab_server lim))))%list.
    destruct (lab_server_middle_ok lim env (mkPState (<["ServerApp.port" := v]>
                 (cfg (mkPState (<["ServerApp.ip" := PStr "0.0.0.0"]> (cfg st)) (out st) (disk st))))
                 (out st) (disk st))) as [st2 H2].
    rewrite (exec_script_app_ok _ _ _ _ _ H2).
    cbn [exec_script for_each exec_stmt]. unfold bind at 1.
    destruct (truthy (env_get env "JUPYTERHUB_API_TOKEN" PNone)); eexists; reflexivity.
  - right. apply int_from_env_raise in Hi as [msg ->]; [eauto | left; eauto].
Qed.

(** Claim C9: numeric parsing of the environment is unguarded.  If
    [JUPYTERHUB_CPU_LIMIT] or [JUPYTERHUB_CPU_GUARANTEE] holds a string that
    [float()] rejects, the hub configuration ends in a [ValueError]; if
    [JUPYTER_PORT] or [JUPYTER_KERNEL_TIMEOUT] holds a string that [int()]
    rejects, the lab configuration ends in a [ValueError].  No default is
    substituted. *)
Theorem numeric_env_unguarded :
  (forall env st k s e,
     (k = "JUPYTERHUB_CPU_LIMIT" \/ k = "JUPYTERHUB_CPU_GUARANTEE") ->
     env !! k = Some s -> py_float_of_string s = Raise e ->
     exists msg, snd (exec_script env hub_script st) = Raise (ValueError msg)) /\
  (forall lim home env st k s e,
     (k = "JUPYTER_PORT" \/ k = "JUPYTER_KERNEL_TIMEOUT") ->
     env !! k = Some s -> py_int_of_string lim s = Raise e ->
     exists msg, snd (exec_script env (lab_script lim home) st) = Raise (ValueError msg)).
Proof.
  split.
  - intros env st k s e [-> | ->] Hk Hs.
    + destruct (hub_prefix_ok env st) as [st1 H1].
      rewrite hub_script_at_cpu_limit.
      assert (Hf : float_from_env "JUPYTERHUB_CPU_LIMIT" "1.0" env (cfg st1) = Raise e).
      { unfold float_from_env, env_get. rewrite Hk. simpl. by rewrite Hs. }
      destruct (float_from_env_raise _ _ _ _ _ Hf) as [msg ->].
      exists msg. exact (assign_raises _ _ _ _ _ _ _ _ H1 Hf).
    + destruct (hub_prefix_ok env st) as [st1 H1].
      rewrite hub_script_at_cpu_guarantee, (exec_script_app_ok _ _ _ _ _ H1).
      rewrite exec_script_assign_cons.
      destruct (float_from_env "JUPYTERHUB_CPU_LIMIT" "1.0" env (cfg st1)) as [v|ex] eqn:Hl.
      * rewrite exec_script_assign_cons. simpl cfg. cbn [from_env].
        assert (Hf : forall c, float_from_env "JUPYTERHUB_CPU_GUARANTEE" "0.5" env c = Raise e).
        { intros c. unfold float_from_env, env_get. rewrite Hk. simpl. by rewrite Hs. }
        rewrite exec_script_assign_cons, Hf.
        apply py_float_of_string_raise in Hs as [msg ->]. by exists msg.
      * destruct (float_from_env_raise _ _ _ _ _ Hl) as [msg ->].
        exists msg. reflexivity.
  - intros lim home env st k s e [-> | ->] Hk Hs.
    + rewrite lab_script_at_port.
      set (st1 := mkPState (<["ServerApp.ip" := PStr "0.0.0.0"]> (cfg st)) (out st) (disk st)).
      assert (Hf : int_from_env lim "JUPYTER_PORT" (PInt 8888) env (cfg st1) = Raise e).
      { unfold int_from_env, env_get. rewrite Hk. simpl. by rewrite Hs. }
      destruct (int_from_env_raise _ _ _ _ _ _ (or_introl (ex_intro _ _ eq_refl)) Hf)
        as [msg ->].
      exists msg. exact (assign_raises env [Assign "ServerApp.ip" (const (PStr "0.0.0.0"))]
                           _ _ _ st st1 _ eq_refl Hf).
    + rewrite lab_script_at_kernel_timeout.
      destruct (lab_server_outcome lim env st) as [[st1 H1] | [st1 [msg H1]]].
      * assert (Hf : int_from_env lim "JUPYTER_KERNEL_TIMEOUT" (PInt 3600) env (cfg st1)
                       = Raise e).
        { unfold int_from_env, env_get. rewrite Hk. simpl. by rewrite Hs. }
        destruct (int_from_env_raise _ _ _ _ _ _ (or_introl (ex_intro _ _ eq_refl)) Hf)
          as [msg ->].
        exists msg. exact (assign_raises _ _ _ _ _ _ _ _ H1 Hf).
      * exists msg. by rewrite (exec_script_app_raise _ _ _ _ _ _ H1).
Qed.

Lemma numeric_env_unguarded_witness :
  (exists msg, snd (exec_script {[ "JUPYTERHUB_CPU_LIMIT" := "abc" ]} hub_script
                      (init_state ∅)) = Raise (ValueError msg)) /\
  (exists msg, snd (exec_script {[ "JUPYTER_KERNEL_TIMEOUT" := "1h" ]}
                      (lab_script 4300 jovyan_home) (init_state ∅)) = Raise (ValueError msg)).
Proof.
  split.
  - eapply (proj1 numeric_env_unguarded _ _ "JUPYTERHUB_CPU_LIMIT" "abc");
      [left; reflexivity | reflexivity | vm_compute; reflexivity].
  - eapply (proj2 numeric_env_unguarded _ _ _ _ "JUPYTER_KERNEL_TIMEOUT" "1h");
      [right; reflexivity | reflexivity | vm_compute; reflexivity].
Defined.

(* ------------------------------------------------------------------ *)
(** ** C3: the admin flag set by [pre_spawn_hook] *)

Lemma pre_spawn_hook_run c now sp admins :
  c !! "Authenticator.admin_users" = Some (PSet admins) ->
  pre_spawn_hook c now sp =
  (mkSpawner (user_name sp)
     (if bool_decide (user_name sp ∈ admins)
      then <["JUPYTER_ADMIN" := "1"]> (environment sp) else environment sp)
     (spawner_log sp ++ ["Pre-spawn hook for user: " ++ user_name sp] ++
      ["Starting server for " ++ user_name sp ++ " at " ++ now]), Ok tt).
Proof.
  intros Hc. unfold pre_spawn_hook, cfg_get. rewrite Hc.
  unfold bind, get, log_info, modify, lift_outcome, ret. simpl.
  destruct (bool_decide (user_name sp ∈ admins)); simpl; by rewrite <- app_assoc.
Qed.

(** Claim C3 (amended).  Run against the configuration the hub script leaves,
    [pre_spawn_hook] completes; for a user in the admin set it maps
    [JUPYTER_ADMIN] to ["1"] in [spawner.environment]; for any other user it
    leaves [spawner.environment] exactly as it was, so the key is absent
    afterwards precisely when it was absent before. *)
Theorem pre_spawn_hook_admin_flag env st now sp :
  let c := cfg (fst (exec_script env hub_script st)) in
  snd (pre_spawn_hook c now sp) = Ok tt /\
  (user_name sp ∈ admin_users_of env ->
   environment (fst (pre_spawn_hook c now sp)) !! "JUPYTER_ADMIN" = Some "1") /\
  (user_name sp ∉ admin_users_of env ->
   environment (fst (pre_spawn_hook c now sp)) = environment sp).
Proof.
  cbv zeta. rewrite (pre_spawn_hook_run _ _ _ _ (hub_admin_users_final env st)). simpl.
  split; [reflexivity|split; intros H].
  - rewrite bool_decide_eq_true_2 by exact H. by simplify_map_eq.
  - by rewrite bool_decide_eq_false_2 by exact H.
Qed.

Lemma pre_spawn_hook_admin_flag_witness :
  environment (fst (pre_spawn_hook
    (cfg (fst (exec_script {["JUPYTERHUB_ADMIN_USERS" := "alice,bob"]} hub_script
                 (init_state ∅)))) "2025-01-09"
    (mkSpawner "bob" ∅ []))) !! "JUPYTER_ADMIN" = Some "1" /\
  environment (fst (pre_spawn_hook
    (cfg (fst (exec_script {["JUPYTERHUB_ADMIN_USERS" := "alice,bob"]} hub_script
                 (init_state ∅)))) "2025-01-09"
    (mkSpawner "carol" ∅ []))) = environment (mkSpawner "carol" ∅ []).
Proof.
  split.
  - apply (proj1 (proj2 (pre_spawn_hook_admin_flag _ _ _ _))). vm_compute. set_solver.
  - apply (proj2 (proj2 (pre_spawn_hook_admin_flag _ _ _ _))). vm_compute. set_solver.
Defined.

(** C3 counterexample: the claim quantifies over every spawner object, but
    the hook never deletes the key.  A non-admin user whose
    [spawner.environment] already maps [JUPYTER_ADMIN] to ["1"] still has
    that key after the hook. *)
Lemma pre_spawn_hook_keeps_stale_flag :
  ("alice" ∉ admin_users_of ∅) /\
  environment (fst (pre_spawn_hook (cfg (fst (exec_script ∅ hub_script (init_state ∅))))
                      "2025-01-09"
                      (mkSpawner "alice" {["JUPYTER_ADMIN" := "1"]} [])))
    !! "JUPYTER_ADMIN" = Some "1".
Proof. vm_compute. split; [set_solver | reflexivity]. Qed.

(* ------------------------------------------------------------------ *)
(** ** C4: a failing [setup_user_environment] is not fatal *)

Lemma lab_script_at_setup lim home :
  lab_script lim home =
  ((lab_server lim ++ lab_kernel_and_rest lim) ++ [guarded_setup home] ++ lab_script_tail)%list.
Proof. by rewrite <- app_assoc. Qed.

Lemma lab_script_tail_ok env st :
  exists lines,
    exec_script env lab_script_tail st = (mkPState (cfg st) (out st ++ lines) (disk st), Ok tt).
Proof.
  unfold exec_script, lab_script_tail. cbn [for_each exec_stmt].
  unfold bind, get, emit, modify, ret. simpl.
  eexists. rewrite <- !app_assoc. reflexivity.
Qed.

Lemma guarded_setup_raise home env st fs' e :
  setup_user_environment env home (disk st) = (fs', Raise e) ->
  exec_script env [guarded_setup home] st =
  (mkPState (cfg st) (out st ++ [setup_warning e]) fs', Ok tt).
Proof.
  intros H. unfold exec_script. cbn [for_each exec_stmt guarded_setup].
  unfold bind, try_except, lift_fs. rewrite H. by destruct e.
Qed.

(** Claim C4.  If the statements before line 228 complete and
    [setup_user_environment] raises [e] on the disk they leave, evaluation of
    the lab configuration still completes: the disk is the one the failed
    setup left behind, and the printed output continues with the warning
    line for [e] followed by the startup banner. *)
Theorem setup_failure_non_fatal lim home env st st1 fs' e :
  exec_script env (lab_server lim ++ lab_kernel_and_rest lim) st = (st1, Ok tt) ->
  setup_user_environment env home (disk st1) = (fs', Raise e) ->
  exists lines,
    exec_script env (lab_script lim home) st =
    (mkPState (cfg st1) (out st1 ++ setup_warning e :: lines) fs', Ok tt).
Proof.
  intros H1 H2. rewrite lab_script_at_setup, (exec_script_app_ok _ _ _ _ _ H1).
  rewrite (exec_script_app_ok _ _ _ _ _ (guarded_setup_raise _ _ _ _ _ H2)).
  destruct (lab_script_tail_ok env (mkPState (cfg st1) (out st1 ++ [setup_warning e]) fs'))
    as [lines ->].
  exists lines. simpl. by rewrite <- app_assoc.
Qed.

Lemma setup_failure_non_fatal_witness :
  let st0 := init_state readonly_home_fs in
  let st1 := fst (exec_script ∅ (lab_server 4300 ++ lab_kernel_and_rest 4300) st0) in
  exists lines,
    exec_script ∅ (lab_script 4300 jovyan_home) st0 =
    (mkPState (cfg st1)
       (out st1 ++ setup_warning (PermissionError ["notebooks"; "jovyan"; "home"]) :: lines)
       readonly_home_fs, Ok tt).
Proof.
  intros st0 st1. apply setup_failure_non_fatal.
  - apply run_completed. vm_compute. reflexivity.
  - vm_compute. reflexivity.
Defined.

(* ------------------------------------------------------------------ *)
(** ** C2: [setup_user_environment] is idempotent *)

Lemma fs_wf_spec s :
  fs_wf s = true <-> forall p n, s !! p = Some n -> parent_ok s p = true.
Proof.
  unfold fs_wf. rewrite forallb_forall. split.
  - intros H p n Hp. apply (H (p, n)), list_elem_of_In, elem_of_map_to_list, Hp.
  - intros H [p n] Hin. apply list_elem_of_In, elem_of_map_to_list in Hin. exact (H _ _ Hin).
Qed.

Lemma resolve_lookup s p n : resolve s p = Found n -> s !! p = Some n.
Proof.
  destruct p as [|x q]; simpl.
  - destruct (s !! []); congruence.
  - destruct (resolve s q) as [[w|d]| |]; try discriminate.
    destruct (s !! (x :: q)); congruence.
Qed.

Lemma resolve_weaken s t p n : s ⊆ t -> resolve s p = Found n -> resolve t p = Found n.
Proof.
  intros Hst. revert n. induction p as [|x q IH]; intros n; simpl.
  - destruct (s !! []) eqn:E; [|discriminate]. intros [= <-].
    by rewrite (lookup_weaken _ _ _ _ E Hst).
  - destruct (resolve s q) as [[w|d]| |] eqn:Eq; try discriminate.
    rewrite (IH _ eq_refl). destruct (s !! (x :: q)) eqn:E; [|discriminate].
    intros [= <-]. by rewrite (lookup_weaken _ _ _ _ E Hst).
Qed.

Lemma wf_resolve s p n : fs_wf s = true -> s !! p = Some n -> resolve s p = Found n.
Proof.
  rewrite fs_wf_spec. intros Hwf. revert n. induction p as [|x q IH]; intros n Hp; simpl.
  - by rewrite Hp.
  - pose proof (Hwf _ _ Hp) as Hq. simpl in Hq.
    destruct (s !! q) as [[w|d]|] eqn:E; try discriminate.
    by rewrite (IH _ eq_refl), Hp.
Qed.

Lemma wf_insert s x q w n :
  fs_wf s = true -> s !! q = Some (NDir w) -> s !! (x :: q) = None ->
  fs_wf (<[x :: q := n]> s) = true.
Proof.
  rewrite !fs_wf_spec. intros Hwf Hq Hnew p m Hp.
  destruct (decide (p = x :: q)) as [->|Hne]; simpl.
  - destruct (decide (q = x :: q)) as [E|Hne'].
    + exfalso. apply (f_equal (@length string)) in E. simpl in E. lia.
    + by rewrite lookup_insert_ne, Hq by congruence.
  - rewrite lookup_insert_ne in Hp by congruence.
    pose proof (Hwf _ _ Hp) as Hok. destruct p as [|y r]; [done|]. simpl in *.
    destruct (decide (r = x :: q)) as [->|Hr].
    + by rewrite Hnew in Hok.
    + by rewrite lookup_insert_ne by congruence.
Qed.

Lemma path_is_dir_lookup s p : fs_wf s = true -> s !! p = None -> path_is_dir s p = false.
Proof.
  intros Hwf Hp. unfold path_is_dir.
  destruct (resolve s p) as [[w|d]| |] eqn:E; try reflexivity;
    apply resolve_lookup in E; congruence.
Qed.

(** A directory that is already there: [mkdir(parents=True, exist_ok=True)]
    succeeds and changes nothing. *)
Lemma mkdir_parents_existing t p w :
  resolve t p = Found (NDir w) -> mkdir_parents true p t = (t, Ok tt).
Proof.
  intros H. destruct p as [|x q]; simpl.
  - unfold path_is_dir. simpl in H. rewrite H. simpl. by rewrite H.
  - pose proof H as H'. simpl in H'.
    destruct (resolve t q) as [[w'|d]| |] eqn:Eq; try discriminate.
    destruct (t !! (x :: q)) eqn:E; [|discriminate].
    simpl. rewrite ?Eq, ?E. simpl. unfold path_is_dir. by rewrite H.
Qed.

(** What [mkdir(parents=True, exist_ok=True)] does on a well-formed tree:
    it either fails without touching the tree, or it leaves a well-formed
    extension in which the path is a directory and every new entry is a
    writable directory. *)
Lemma mkdir_parents_spec p : forall s s1 r,
  fs_wf s = true -> mkdir_parents true p s = (s1, r) ->
  ((exists e, r = Raise e) /\ s1 = s) \/
  (r = Ok tt /\ s ⊆ s1 /\ fs_wf s1 = true /\ (exists w, s1 !! p = Some (NDir w)) /\
   forall p' n, s !! p' = None -> s1 !! p' = Some n -> n = NDir true).
Proof.
  induction p as [|x q IH]; intros s s1 r Hwf Hrun; simpl in Hrun.
  - destruct (s !! []) as [n|] eqn:E; simpl in Hrun.
    + unfold path_is_dir in Hrun. simpl in Hrun. rewrite E in Hrun. simpl in Hrun.
      destruct n as [w|d]; inversion Hrun; subst.
      * right. repeat split; eauto. intros p' n H1 H2. congruence.
      * left. eauto.
    + inversion Hrun; subst. left. eauto.
  - destruct (resolve s q) as [[w|d]| |] eqn:Eq.
    + destruct (s !! (x :: q)) as [n|] eqn:E.
      * simpl in Hrun. unfold path_is_dir in Hrun. simpl in Hrun. rewrite Eq, E in Hrun.
        destruct n as [w'|d]; simpl in Hrun; inversion Hrun; subst.
        -- right. repeat split; eauto. intros p' n H1 H2. congruence.
        -- left. eauto.
      * destruct w; simpl in Hrun.
        -- inversion Hrun; subst. right. repeat split.
           ++ by apply insert_subseteq.
           ++ exact (wf_insert _ _ _ _ _ Hwf (resolve_lookup _ _ _ Eq) E).
           ++ exists true. by rewrite lookup_insert_eq.
           ++ intros p' n H1 H2. destruct (decide (p' = x :: q)) as [->|Hne].
              ** rewrite lookup_insert_eq in H2. congruence.
              ** rewrite lookup_insert_ne in H2 by congruence. congruence.
        -- rewrite (path_is_dir_lookup _ _ Hwf E) in Hrun. simpl in Hrun.
           inversion Hrun; subst. left. eauto.
    + simpl in Hrun. unfold path_is_dir in Hrun. simpl in Hrun. rewrite Eq in Hrun.
      inversion Hrun; subst. left. eauto.
    + (* the parent is missing: create it, then retry *)
      assert (Hq : s !! q = None).
      { destruct (s !! q) eqn:E; [|done]. rewrite (wf_resolve _ _ _ Hwf E) in Eq. discriminate. }
      assert (Hp : s !! (x :: q) = None).
      { destruct (s !! (x :: q)) eqn:E; [|done]. apply fs_wf_spec with (p := x :: q) in E;
          [|exact Hwf]. simpl in E. by rewrite Hq in E. }
      unfold bind in Hrun.
      destruct (mkdir_parents true q s) as [s' r'] eqn:Hr.
      destruct (IH _ _ _ Hwf Hr) as [[[e ->] ->] | (-> & Hsub & Hwf' & [w' Hw'] & Hnew)].
      { inversion Hrun; subst. left. eauto. }
      assert (w' = true) as ->.
      { specialize (Hnew _ _ Hq Hw'). congruence. }
      unfold mkdir_single in Hrun. simpl in Hrun.
      rewrite (wf_resolve _ _ _ Hwf' Hw') in Hrun.
      destruct (s' !! (x :: q)) as [n|] eqn:E'.
      * assert (n = NDir true) as -> by exact (Hnew _ _ Hp E').
        unfold path_is_dir in Hrun. simpl in Hrun.
        rewrite (wf_resolve _ _ _ Hwf' Hw'), E' in Hrun. simpl in Hrun.
        inversion Hrun; subst. right. repeat split; eauto.
      * inversion Hrun; subst. right. repeat split.
        -- transitivity s'; [exact Hsub | by apply insert_subseteq].
        -- exact (wf_insert _ _ _ _ _ Hwf' Hw' E').
        -- exists true. by rewrite lookup_insert_eq.
        -- intros p' n H1 H2. destruct (decide (p' = x :: q)) as [->|Hne].
           ++ rewrite lookup_insert_eq in H2. congruence.
           ++ rewrite lookup_insert_ne in H2 by congruence. exact (Hnew _ _ H1 H2).
    + simpl in Hrun. unfold path_is_dir in Hrun. simpl in Hrun. rewrite Eq in Hrun.
      inversion Hrun; subst. left. eauto.
Qed.

Lemma settles_unchanged (m : M fs unit) s r :
  fs_wf s = true -> m s = (s, r) -> (r = Ok tt -> fs_done m s) ->
  fs_wf s = true /\ s ⊆ s /\ m s = (s, r) /\ (r = Ok tt -> fs_done m s).
Proof. intros Hwf Hm Hd. repeat split; auto. Qed.

Lemma settles_mkdir p : settles (mkdir_parents true p).
Proof.
  intros s s1 r Hwf Hrun.
  destruct (mkdir_parents_spec p _ _ _ Hwf Hrun) as [[[e ->] ->] | (-> & Hsub & Hwf1 & [w Hw] & _)].
  - apply settles_unchanged; [exact Hwf | exact Hrun | discriminate].
  - assert (Hd : fs_done (mkdir_parents true p) s1).
    { intros t Ht Hwft. apply (mkdir_parents_existing _ _ w), (wf_resolve _ _ _ Hwft).
      exact (lookup_weaken _ _ _ _ Hw Ht). }
    repeat split; auto. all: apply Hd; [reflexivity | exact Hwf1].
Qed.

Lemma settles_ret : settles (ret tt).
Proof.
  intros s s1 r Hwf Hrun. inversion Hrun; subst.
  repeat split; auto. all: intros _ t _ _; reflexivity.
Qed.

Lemma settles_seq (m k : M fs unit) : settles m -> settles k -> settles (m ;;; k).
Proof.
  intros Hm Hk s s2 r Hwf Hrun. unfold bind in Hrun.
  destruct (m s) as [s1 [[]|e]] eqn:E1.
  - destruct (Hm _ _ _ Hwf E1) as (Hwf1 & Hsub1 & _ & Hd1).
    destruct (Hk _ _ _ Hwf1 Hrun) as (Hwf2 & Hsub2 & Hre2 & Hd2).
    assert (Hm2 : m s2 = (s2, Ok tt)) by (apply (Hd1 eq_refl); assumption).
    repeat split; auto.
    + by transitivity s1.
    + unfold bind. by rewrite Hm2.
    + intros -> t Ht Hwft. unfold bind.
      rewrite (Hd1 eq_refl t (transitivity Hsub2 Ht) Hwft).
      exact (Hd2 eq_refl t Ht Hwft).
  - inversion Hrun; subst.
    destruct (Hm _ _ _ Hwf E1) as (Hwf1 & Hsub1 & Hre1 & _).
    repeat split; auto.
    + unfold bind. by rewrite Hre1.
    + discriminate.
Qed.

Lemma settles_for_each {A} (xs : list A) (body : A -> M fs unit) :
  (forall x, settles (body x)) -> settles (for_each xs body).
Proof.
  intros Hb. induction xs as [|x xs IH]; simpl.
  - apply settles_ret.
  - by apply settles_seq.
Qed.

(** The last step of [setup_user_environment]: write the sample notebook
    unless it exists. *)
Lemma settles_sample_notebook p data :
  settles (let* s := get in if path_exists s p then ret tt else open_write p data).
Proof.
  intros s s1 r Hwf Hrun. pose proof Hrun as Hrun0. unfold bind, get in Hrun.
  assert (Hdone : forall t, resolve t p <> NoEnt -> resolve t p <> NotDir ->
            fs_done (let* s := get in if path_exists s p then ret tt else open_write p data) t).
  { intros t H1 H2 t' Ht Hwft. unfold bind, get.
    destruct (resolve t p) as [n| |] eqn:Er; try congruence.
    unfold path_exists. by rewrite (resolve_weaken _ _ _ _ Ht Er). }
  destruct (path_exists s p) eqn:Ex.
  - inversion Hrun; subst. apply settles_unchanged; auto.
    intros _. unfold path_exists in Ex.
      apply Hdone; destruct (resolve s1 p); congruence.
  - unfold open_write in Hrun. destruct p as [|x q].
    + inversion Hrun; subst. apply settles_unchanged; [exact Hwf | exact Hrun0 | discriminate].
    + destruct (resolve s q) as [[w|d]| |] eqn:Eq;
        try (inversion Hrun; subst; apply settles_unchanged;
             [exact Hwf | exact Hrun0 | discriminate]).
      assert (Hp : s !! (x :: q) = None).
      { destruct (s !! (x :: q)) eqn:E; [|done].
        unfold path_exists in Ex. by rewrite (wf_resolve _ _ _ Hwf E) in Ex. }
      rewrite Hp in Hrun. destruct w;
        [|inversion Hrun; subst; apply settles_unchanged;
          [exact Hwf | exact Hrun0 | discriminate]].
      inversion Hrun; subst.
      assert (Hsub : s ⊆ <[x :: q := NFile data]> s) by (by apply insert_subseteq).
      assert (Hwf1 : fs_wf (<[x :: q := NFile data]> s) = true)
        by exact (wf_insert _ _ _ _ _ Hwf (resolve_lookup _ _ _ Eq) Hp).
      assert (Hr1 : resolve (<[x :: q := NFile data]> s) (x :: q) = Found (NFile data)).
      { apply (wf_resolve _ _ _ Hwf1). by rewrite lookup_insert_eq. }
      assert (Hd : fs_done (let* s := get in if path_exists s (x :: q) then ret tt
                            else open_write (x :: q) data) (<[x :: q := NFile data]> s)).
      { apply Hdone; by rewrite Hr1. }
      repeat split; auto. all: apply Hd; [reflexivity | exact Hwf1].
Qed.

(** Claim C2.  On a well-formed tree, a second run of
    [setup_user_environment] on the tree the first run leaves behind ends
    the same way and changes nothing, so the directory set (and every other
    entry) is the same after one run as after two.  A run never alters an
    entry already present; in particular an existing
    [notebooks/Welcome.ipynb] keeps its contents. *)
Theorem setup_user_environment_idempotent env home s :
  fs_wf s = true ->
  setup_user_environment env home (fst (setup_user_environment env home s)) =
    setup_user_environment env home s /\
  s ⊆ fst (setup_user_environment env home s) /\
  (forall c, s !! sample_notebook home = Some (NFile c) ->
     fst (setup_user_environment env home s) !! sample_notebook home = Some (NFile c)).
Proof.
  intros Hwf.
  assert (Hs : settles (setup_user_environment env home)).
  { apply settles_seq; [apply settles_for_each; intros; apply settles_mkdir |].
    apply settles_sample_notebook. }
  destruct (setup_user_environment env home s) as [s1 r] eqn:E. simpl.
  destruct (Hs _ _ _ Hwf E) as (_ & Hsub & Hre & _).
  repeat split; auto. intros c Hc. exact (lookup_weaken _ _ _ _ Hc Hsub).
Qed.

Lemma setup_user_environment_idempotent_witness :
  setup_user_environment ∅ jovyan_home (fst (setup_user_environment ∅ jovyan_home fresh_home_fs)) =
    setup_user_environment ∅ jovyan_home fresh_home_fs.
Proof.
  apply (setup_user_environment_idempotent ∅ jovyan_home fresh_home_fs).
  vm_compute. reflexivity.
Defined.

(* ------------------------------------------------------------------ *)
(** ** The start-up log calls *)

(** The hub configuration never evaluates to completion: the first
    [c.JupyterHub.log.info] call (line 285) raises [AttributeError], so
    nothing after it runs, the [append] of line 295 included.  When
    [float()] accepts the two CPU settings, that [AttributeError] is the
    outcome of the evaluation. *)
Theorem hub_script_never_completes env st :
  snd (exec_script env hub_script st) <> Ok tt /\
  ((exists f, py_float (env_get env "JUPYTERHUB_CPU_LIMIT" (PStr "1.0")) = Ok f) ->
   (exists f, py_float (env_get env "JUPYTERHUB_CPU_GUARANTEE" (PStr "0.5")) = Ok f) ->
   snd (exec_script env hub_script st) = Raise log_info_error).
Proof.
  rewrite hub_script_split.
  destruct (exec_script env hub_config st) as [st1 [[]|ex]] eqn:Hx.
  - rewrite (exec_script_app_ok _ _ _ _ _ Hx), hub_startup_run. split; [discriminate | reflexivity].
  - rewrite (exec_script_app_raise _ _ _ _ _ _ Hx). split; [discriminate|].
    intros Hl Hg. destruct (hub_config_completes env st Hl Hg) as [st2 H2]. congruence.
Qed.

Lemma hub_script_never_completes_witness :
  snd (exec_script ∅ hub_script (init_state ∅)) = Raise log_info_error.
Proof.
  apply (proj2 (hub_script_never_completes ∅ (init_state ∅))); eexists; reflexivity.
Defined.

Lemma hub_config_at_services :
  hub_config =
  ((hub_basic ++ hub_kubernetes ++ hub_storage ++ hub_spawner_auth ++ firstn 4 hub_profiles_services) ++
   Assign "JupyterHub.services" (const (PList [idle_culler_service])) ::
   (skipn 5 hub_profiles_services ++ [tls_block] ++ hub_settings_tail))%list.
Proof. reflexivity. Qed.

(** Services (lines 191-202 and 295).  Whenever [float()] accepts the two
    CPU settings, the configuration the evaluation leaves holds the idle
    culler alone in [c.JupyterHub.services]: the [append] of the
    health-check service is never reached. *)
Theorem hub_services_final env st :
  (exists f, py_float (env_get env "JUPYTERHUB_CPU_LIMIT" (PStr "1.0")) = Ok f) ->
  (exists f, py_float (env_get env "JUPYTERHUB_CPU_GUARANTEE" (PStr "0.5")) = Ok f) ->
  cfg (fst (exec_script env hub_script st)) !! "JupyterHub.services" =
    Some (PList [idle_culler_service]).
Proof.
  intros Hl Hg. destruct (hub_config_completes env st Hl Hg) as [st1 Hx].
  rewrite (hub_final_from_config _ _ _ "JupyterHub.services" Hx) by discriminate.
  rewrite hub_config_at_services in Hx.
  apply assign_survives in Hx as (st0 & v & _ & Hv & Hk); [|reflexivity].
  unfold const in Hv. by inversion Hv; subst.
Qed.

Lemma hub_services_final_witness :
  cfg (fst (exec_script ∅ hub_script (init_state ∅))) !! "JupyterHub.services" =
  Some (PList [idle_culler_service]).
Proof.
  apply (hub_services_final ∅ (init_state ∅)); eexists; reflexivity.
Defined.

(* ------------------------------------------------------------------ *)
(** ** Conditional blocks *)

Lemma for_each_assign_frame env body k st st' r :
  existsb (fun ke => String.eqb k (fst ke)) body = false ->
  for_each body (exec_assign env) st = (st', r) -> cfg st' !! k = cfg st !! k.
Proof.
  intros Hk Hx.
  apply (exec_stmt_frame env (AssignIf (fun _ => true) body) k st st' r); simpl.
  - by rewrite Hk.
  - exact Hx.
Qed.

Lemma existsb_key_notin k (body : list (string * rhs)) :
  k ∉ map fst body -> existsb (fun ke => String.eqb k (fst ke)) body = false.
Proof.
  induction body as [|[k' e] body IH]; simpl; intros Hn; [done|].
  rewrite elem_of_cons in Hn. assert (Hne : k <> k') by naive_solver.
  assert (Hn' : k ∉ map fst body) by naive_solver. clear Hn.
  apply orb_false_iff. split; [by apply String.eqb_neq | by apply IH].
Qed.

Lemma for_each_assign_const env body k v st st' :
  for_each body (exec_assign env) st = (st', Ok tt) ->
  In (k, const v) body -> NoDup (map fst body) -> cfg st' !! k = Some v.
Proof.
  revert st. induction body as [|[k' e] body IH]; intros st Hx Hin Hnd; [destruct Hin|].
  simpl in Hx. unfold bind at 1, exec_assign, bind, get, lift_outcome, set_cfg, modify in Hx.
  simpl in Hx. simpl in Hnd. apply NoDup_cons in Hnd as [Hnotin Hnd].
  destruct Hin as [[= -> ->]|Hin].
  - unfold const in Hx. rewrite (for_each_assign_frame _ _ _ _ _ _ (existsb_key_notin _ _ Hnotin) Hx).
    simpl. by rewrite lookup_insert_eq.
  - destruct (e env (cfg st)) as [v'|ex]; [|discriminate]. exact (IH _ Hx Hin Hnd).
Qed.

(** After a completed evaluation, a key set to a constant by a conditional
    block whose condition holds, and never written again, holds that
    constant. *)
Lemma assignif_survives env pre cond body post k v st st' :
  exec_script env (pre ++ AssignIf cond body :: post) st = (st', Ok tt) ->
  cond env = true -> In (k, const v) body -> NoDup (map fst body) ->
  script_keeps env post k = true ->
  cfg st' !! k = Some v.
Proof.
  intros Hx Hc Hin Hnd Hk. apply exec_script_app_inv in Hx as (st1 & _ & Hx).
  unfold exec_script in Hx. simpl in Hx. rewrite Hc in Hx. unfold bind at 1 in Hx.
  destruct (for_each body (exec_assign env) st1) as [st2 [[]|ex]] eqn:Hb; [|discriminate].
  fold (exec_script env post) in Hx.
  rewrite (exec_script_frame _ _ _ _ _ _ Hk Hx).
  exact (for_each_assign_const _ _ _ _ _ _ Hb Hin Hnd).
Qed.

Lemma hub_config_at_debug :
  hub_config =
  ((hub_basic ++ hub_kubernetes ++ hub_storage ++ hub_spawner_auth ++
    hub_profiles_services ++ [tls_block] ++ firstn 3 hub_settings_tail) ++
   AssignIf (fun env => env_flag env "JUPYTERHUB_DEBUG" "False")
     [("JupyterHub.log_level", const logging_DEBUG);
      ("Application.log_level", const logging_DEBUG)] ::
   skipn 4 hub_settings_tail)%list.
Proof. reflexivity. Qed.

Lemma hub_config_at_log_level :
  hub_config =
  ((hub_basic ++ hub_kubernetes ++ hub_storage ++ hub_spawner_auth ++
    firstn 1 hub_profiles_services) ++
   Assign "JupyterHub.log_level" (const logging_INFO) ::
   (skipn 2 hub_profiles_services ++ [tls_block] ++ hub_settings_tail))%list.
Proof. reflexivity. Qed.

(** [JUPYTERHUB_DEBUG] (lines 180, 280-282).  Whenever [float()] accepts
    the two CPU settings, the configuration the evaluation leaves has
    [c.JupyterHub.log_level] equal to [logging.DEBUG] when the variable,
    lower-cased, is ['true'], and to [logging.INFO] otherwise;
    [c.Application.log_level] is set to [logging.DEBUG] in the first case
    and left untouched in the second. *)
Theorem hub_debug_log_level env st :
  (exists f, py_float (env_get env "JUPYTERHUB_CPU_LIMIT" (PStr "1.0")) = Ok f) ->
  (exists f, py_float (env_get env "JUPYTERHUB_CPU_GUARANTEE" (PStr "0.5")) = Ok f) ->
  cfg (fst (exec_script env hub_script st)) !! "JupyterHub.log_level" =
    Some (if env_flag env "JUPYTERHUB_DEBUG" "False" then logging_DEBUG else logging_INFO) /\
  cfg (fst (exec_script env hub_script st)) !! "Application.log_level" =
    (if env_flag env "JUPYTERHUB_DEBUG" "False" then Some logging_DEBUG
     else cfg st !! "Application.log_level").
Proof.
  intros Hl Hg. destruct (hub_config_completes env st Hl Hg) as [st' Hx].
  rewrite (hub_final_from_config _ _ _ "JupyterHub.log_level" Hx),
    (hub_final_from_config _ _ _ "Application.log_level" Hx) by discriminate.
  destruct (env_flag env "JUPYTERHUB_DEBUG" "False") eqn:Hf.
  - rewrite hub_config_at_debug in Hx. split.
    + eapply assignif_survives; [exact Hx | exact Hf | left; reflexivity | | reflexivity].
      repeat constructor; set_solver.
    + eapply assignif_survives; [exact Hx | exact Hf | right; left; reflexivity | | reflexivity].
      repeat constructor; set_solver.
  - split.
    + pose proof Hx as H. rewrite hub_config_at_log_level in H.
      apply assign_survives in H as (st1 & v & _ & Hv & Hk).
      * unfold const in Hv. by inversion Hv; subst.
      * unfold script_keeps. simpl. by rewrite Hf.
    + eapply exec_script_frame; [|exact Hx]. unfold script_keeps. simpl. by rewrite Hf.
Qed.

Lemma hub_debug_log_level_witness :
  cfg (fst (exec_script {["JUPYTERHUB_DEBUG" := "TRUE"]} hub_script (init_state ∅)))
    !! "JupyterHub.log_level" = Some logging_DEBUG.
Proof.
  assert (Hl : exists f, py_float (env_get {["JUPYTERHUB_DEBUG" := "TRUE"]}
                 "JUPYTERHUB_CPU_LIMIT" (PStr "1.0")) = Ok f) by (eexists; reflexivity).
  assert (Hg : exists f, py_float (env_get {["JUPYTERHUB_DEBUG" := "TRUE"]}
                 "JUPYTERHUB_CPU_GUARANTEE" (PStr "0.5")) = Ok f) by (eexists; reflexivity).
  exact (proj1 (hub_debug_log_level {["JUPYTERHUB_DEBUG" := "TRUE"]} (init_state ∅) Hl Hg)).
Defined.

(* ------------------------------------------------------------------ *)
(** ** Printed output *)

Lemma exec_stmt_quiet env s st st' r :
  quiet s = true -> exec_stmt env s st = (st', r) -> out st' = out st /\ disk st' = disk st.
Proof.
  destruct s as [k e|cond body|k v|msg|f warn]; simpl; intros Hq Hx; try discriminate.
  - unfold exec_assign, bind, get, lift_outcome, set_cfg, modify in Hx; simpl in Hx.
    destruct (e env (cfg st)); by inversion Hx.
  - destruct (cond env); [|by inversion Hx]. revert st Hx.
    induction body as [|[k e] body IH]; simpl; intros st Hx; [by inversion Hx|].
    unfold bind at 1, exec_assign, bind, get, lift_outcome, set_cfg, modify in Hx; simpl in Hx.
    destruct (e env (cfg st)); [|by inversion Hx].
    by destruct (IH _ Hx) as [-> ->].
  - unfold bind, get, set_cfg, modify, throw in Hx; simpl in Hx.
    destruct (cfg st !! k) as [[]|]; by inversion Hx.
Qed.

Lemma exec_script_quiet env prog st st' r :
  forallb quiet prog = true -> exec_script env prog st = (st', r) ->
  out st' = out st /\ disk st' = disk st.
Proof.
  unfold exec_script. revert st. induction prog as [|s prog IH]; simpl; intros st Hq Hx.
  - by inversion Hx.
  - apply andb_true_iff in Hq as [Hs Hq].
    unfold bind in Hx. destruct (exec_stmt env s st) as [st1 [u|e]] eqn:Hx1.
    + destruct (exec_stmt_quiet _ _ _ _ _ Hs Hx1) as [<- <-]. exact (IH _ Hq Hx).
    + inversion Hx; subst. exact (exec_stmt_quiet _ _ _ _ _ Hs Hx1).
Qed.

(** Printed output (lines 285-288).  Whatever the environment, evaluating
    the hub configuration prints and logs nothing and leaves the disk alone:
    the four [c.JupyterHub.log.info] calls raise before a message is
    formed. *)
Theorem hub_prints_nothing env st :
  out (fst (exec_script env hub_script st)) = out st /\
  disk (fst (exec_script env hub_script st)) = disk st.
Proof.
  destruct (exec_script env hub_script st) as [st' r] eqn:Hx. simpl.
  apply exec_script_quiet in Hx; [exact Hx | reflexivity].
Qed.

(* ------------------------------------------------------------------ *)
(** ** Authentication *)

Lemma hub_config_at_signup :
  hub_config =
  ((hub_basic ++ hub_kubernetes ++ hub_storage ++ firstn 6 hub_spawner_auth) ++
   Assign "NativeAuthenticator.enable_signup"
     (fun env _ => Ok (PBool (env_flag env "JUPYTERHUB_ENABLE_SIGNUP" "True"))) ::
   (hub_profiles_services ++ [tls_block] ++ hub_settings_tail))%list.
Proof. reflexivity. Qed.

(** Self-signup (line 98).  Whenever [float()] accepts the two CPU
    settings, the configuration the evaluation leaves has
    [c.NativeAuthenticator.enable_signup] equal to [True] when
    [JUPYTERHUB_ENABLE_SIGNUP] is unset, and otherwise to whether its
    value, lower-cased, is ['true']: any other value, the empty string
    included, disables signup. *)
Theorem hub_signup_default env st :
  (exists f, py_float (env_get env "JUPYTERHUB_CPU_LIMIT" (PStr "1.0")) = Ok f) ->
  (exists f, py_float (env_get env "JUPYTERHUB_CPU_GUARANTEE" (PStr "0.5")) = Ok f) ->
  cfg (fst (exec_script env hub_script st)) !! "NativeAuthenticator.enable_signup" =
    Some (PBool (match env !! "JUPYTERHUB_ENABLE_SIGNUP" with
                 | None => true
                 | Some v => String.eqb (lower v) "true"
                 end)).
Proof.
  intros Hl Hg. destruct (hub_config_completes env st Hl Hg) as [st' Hx].
  rewrite (hub_final_from_config _ _ _ "NativeAuthenticator.enable_signup" Hx) by discriminate.
  rewrite hub_config_at_signup in Hx.
  apply assign_survives in Hx as (st1 & v & _ & Hv & Hk); [|reflexivity].
  injection Hv as <-. rewrite Hk. unfold env_flag.
  by destruct (env !! "JUPYTERHUB_ENABLE_SIGNUP").
Qed.

Lemma hub_signup_default_witness :
  cfg (fst (exec_script {["JUPYTERHUB_ENABLE_SIGNUP" := "yes"]} hub_script (init_state ∅)))
    !! "NativeAuthenticator.enable_signup" = Some (PBool false).
Proof.
  assert (Hl : exists f, py_float (env_get {["JUPYTERHUB_ENABLE_SIGNUP" := "yes"]}
                 "JUPYTERHUB_CPU_LIMIT" (PStr "1.0")) = Ok f) by (eexists; reflexivity).
  assert (Hg : exists f, py_float (env_get {["JUPYTERHUB_ENABLE_SIGNUP" := "yes"]}
                 "JUPYTERHUB_CPU_GUARANTEE" (PStr "0.5")) = Ok f) by (eexists; reflexivity).
  exact (hub_signup_default {["JUPYTERHUB_ENABLE_SIGNUP" := "yes"]} (init_state ∅) Hl Hg).
Defined.

(* ------------------------------------------------------------------ *)
(** ** Spawner hooks *)

(** [pre_spawn_hook] then [post_stop_hook] (lines 251-270), with the
    configuration a hub evaluation leaves: the user name is unchanged, the
    environment changes at most at ['JUPYTER_ADMIN'] (set to ['1'] exactly
    for a member of the admin set), and the log gains exactly three lines,
    in order. *)
Theorem spawn_stop_cycle env st now1 now2 sp :
  (pre_spawn_hook (cfg (fst (exec_script env hub_script st))) now1 ;;; post_stop_hook now2) sp =
  (mkSpawner (user_name sp)
     (if bool_decide (user_name sp ∈ admin_users_of env)
      then <["JUPYTER_ADMIN" := "1"]> (environment sp) else environment sp)
     (spawner_log sp ++
        [("Pre-spawn hook for user: " ++ user_name sp)%string;
         ("Starting server for " ++ user_name sp ++ " at " ++ now1)%string;
         ("Server stopped for " ++ user_name sp ++ " at " ++ now2)%string])%list, Ok tt).
Proof.
  unfold bind at 1. rewrite (pre_spawn_hook_run _ _ _ _ (hub_admin_users_final env st)).
  unfold post_stop_hook, bind, get, log_info, modify. simpl.
  by rewrite <- !app_assoc.
Qed.

(* ------------------------------------------------------------------ *)
(** ** The lab configuration *)

(** The lab configuration evaluates to completion whenever [int()] accepts
    the four integer settings (or their defaults apply): a failing
    [setup_user_environment] does not stop it. *)
Theorem lab_script_completes lim home env st :
  (exists z, py_int lim (env_get env "JUPYTER_PORT" (PInt 8888)) = Ok z) ->
  (exists z, py_int lim (env_get env "JUPYTER_KERNEL_TIMEOUT" (PInt 3600)) = Ok z) ->
  (exists z, py_int lim (env_get env "MEM_LIMIT" (PInt 2147483648)) = Ok z) ->
  (exists z, py_int lim (env_get env "JUPYTER_SHUTDOWN_TIMEOUT" (PInt 0)) = Ok z) ->
  snd (exec_script env (lab_script lim home) st) = Ok tt.
Proof.
  intros [z1 H1] [z2 H2] [z3 H3] [z4 H4].
  assert (Ht : Forall (stmt_total env) (lab_script lim home)).
  { unfold lab_script, lab_server, lab_kernel_and_rest, lab_script_tail, guarded_setup.
    simpl. solve_total.
    all: intros c; unfold int_from_env;
      first [rewrite H1 | rewrite H2 | rewrite H3 | rewrite H4]; by eexists. }
  destruct (exec_script_total _ _ st Ht) as [st' ->]. reflexivity.
Qed.

Lemma lab_script_completes_witness :
  snd (exec_script {["JUPYTER_PORT" := "9000"]} (lab_script 4300 jovyan_home)
         (init_state readonly_home_fs)) = Ok tt.
Proof. apply lab_script_completes; eexists; reflexivity. Defined.

Lemma lab_server_at_root_dir lim (P : list stmt) :
  (lab_server lim ++ P)%list =
  (firstn 8 (lab_server lim) ++
   Assign "ServerApp.root_dir" (from_env "JUPYTER_ROOT_DIR" (PStr "/home/jovyan")) ::
   (skipn 9 (lab_server lim) ++ P))%list.
Proof. reflexivity. Qed.

Lemma script_keeps_app env p1 p2 k :
  script_keeps env (p1 ++ p2) k = script_keeps env p1 k && script_keeps env p2 k.
Proof. unfold script_keeps. apply forallb_app. Qed.

(** Once the server section has run, [c.ServerApp.root_dir] holds
    [JUPYTER_ROOT_DIR] or its default until it is written again. *)
Lemma root_dir_after_server lim env P st st1 :
  exec_script env (lab_server lim ++ P) st = (st1, Ok tt) ->
  script_keeps env P "ServerApp.root_dir" = true ->
  cfg st1 !! "ServerApp.root_dir" = Some (env_get env "JUPYTER_ROOT_DIR" (PStr "/home/jovyan")).
Proof.
  rewrite lab_server_at_root_dir. intros Hx Hk.
  apply assign_survives in Hx as (? & v & _ & Hv & ->).
  - by injection Hv as <-.
  - rewrite script_keeps_app, Hk. reflexivity.
Qed.

(** The lab script split before the [j]-th statement of its kernel and
    settings section. *)
Lemma lab_script_at_kernel lim home j :
  lab_script lim home =
  ((lab_server lim ++ firstn j (lab_kernel_and_rest lim)) ++
   skipn j (lab_kernel_and_rest lim) ++ [guarded_setup home] ++ lab_script_tail)%list.
Proof.
  unfold lab_script. rewrite <- app_assoc, (app_assoc (firstn j _)), firstn_skipn. reflexivity.
Qed.

Lemma lab_paths_of_root lim home env st st' :
  exec_script env (lab_script lim home) st = (st', Ok tt) ->
  let r := match env !! "JUPYTER_ROOT_DIR" with Some d => d | None => "/home/jovyan" end in
  cfg st' !! "ServerApp.root_dir" = Some (PStr r) /\
  cfg st' !! "LabApp.user_settings_dir" = Some (PStr (os_path_join r ".jupyter/lab/user-settings")) /\
  cfg st' !! "LabApp.workspaces_dir" = Some (PStr (os_path_join r ".jupyter/lab/workspaces")) /\
  cfg st' !! "GitConfig.git_dir" = Some (PStr r) /\
  cfg st' !! "NotebookNotary.db_file" = Some (PStr (os_path_join r ".jupyter/nbsignatures.db")).
Proof.
  intros Hx r.
  assert (Hr : env_get env "JUPYTER_ROOT_DIR" (PStr "/home/jovyan") = PStr r)
    by (unfold env_get, r; by destruct (env !! "JUPYTER_ROOT_DIR")).
  assert (Hroot : forall j k e,
    skipn j (lab_kernel_and_rest lim) = Assign k e :: skipn (S j) (lab_kernel_and_rest lim) ->
    script_keeps env (firstn j (lab_kernel_and_rest lim)) "ServerApp.root_dir" = true ->
    script_keeps env (skipn (S j) (lab_kernel_and_rest lim) ++ [guarded_setup home] ++
                      lab_script_tail) k = true ->
    exists st1 v, cfg st1 !! "ServerApp.root_dir" = Some (PStr r) /\
                  e env (cfg st1) = Ok v /\ cfg st' !! k = Some v).
  { intros j k e Hj Hk1 Hk2. pose proof Hx as Hx'.
    rewrite (lab_script_at_kernel _ _ j), Hj in Hx'.
    apply assign_survives in Hx' as (st1 & v & H1 & Hv & Hk); [|exact Hk2].
    exists st1, v. split; [|done]. rewrite <- Hr. exact (root_dir_after_server _ _ _ _ _ H1 Hk1). }
  split; [|split; [|split; [|split]]].
  - rewrite <- Hr. apply (root_dir_after_server lim env (lab_kernel_and_rest lim ++
      [guarded_setup home] ++ lab_script_tail) st st'); [|reflexivity].
    by rewrite app_assoc.
  - destruct (Hroot 5 "LabApp.user_settings_dir" (root_dir_join ".jupyter/lab/user-settings"))
      as (st1 & v & H1 & Hv & ->); try reflexivity.
    unfold root_dir_join, cfg_get in Hv. rewrite H1 in Hv. by injection Hv as <-.
  - destruct (Hroot 6 "LabApp.workspaces_dir" (root_dir_join ".jupyter/lab/workspaces"))
      as (st1 & v & H1 & Hv & ->); try reflexivity.
    unfold root_dir_join, cfg_get in Hv. rewrite H1 in Hv. by injection Hv as <-.
  - destruct (Hroot 11 "GitConfig.git_dir" (fun _ c => Ok (cfg_get c "ServerApp.root_dir")))
      as (st1 & v & H1 & Hv & ->); try reflexivity.
    unfold cfg_get in Hv. rewrite H1 in Hv. by injection Hv as <-.
  - destruct (Hroot 17 "NotebookNotary.db_file" (root_dir_join ".jupyter/nbsignatures.db"))
      as (st1 & v & H1 & Hv & ->); try reflexivity.
    unfold root_dir_join, cfg_get in Hv. rewrite H1 in Hv. by injection Hv as <-.
Qed.

(** Paths under the root directory (lines 33, 76-77, 104, 141).  After a
    completed evaluation of the lab configuration, [c.ServerApp.root_dir] and
    [c.GitConfig.git_dir] hold [JUPYTER_ROOT_DIR] (default ['/home/jovyan']),
    and the user-settings, workspaces and notebook-signature paths are that
    directory joined with their fixed relative suffixes. *)
Theorem lab_root_dir_paths lim home env st st' :
  exec_script env (lab_script lim home) st = (st', Ok tt) ->
  let r := match env !! "JUPYTER_ROOT_DIR" with Some d => d | None => "/home/jovyan" end in
  cfg st' !! "ServerApp.root_dir" = Some (PStr r) /\
  cfg st' !! "LabApp.user_settings_dir" = Some (PStr (os_path_join r ".jupyter/lab/user-settings")) /\
  cfg st' !! "LabApp.workspaces_dir" = Some (PStr (os_path_join r ".jupyter/lab/workspaces")) /\
  cfg st' !! "GitConfig.git_dir" = Some (PStr r) /\
  cfg st' !! "NotebookNotary.db_file" = Some (PStr (os_path_join r ".jupyter/nbsignatures.db")).
Proof. apply lab_paths_of_root. Qed.

Lemma lab_root_dir_paths_witness :
  cfg (fst (exec_script {["JUPYTER_ROOT_DIR" := "/srv/work"]} (lab_script 4300 jovyan_home)
              (init_state fresh_home_fs))) !! "LabApp.workspaces_dir" =
  Some (PStr "/srv/work/.jupyter/lab/workspaces").
Proof.
  assert (Hr : snd (exec_script {["JUPYTER_ROOT_DIR" := "/srv/work"]} (lab_script 4300 jovyan_home)
                      (init_state fresh_home_fs)) = Ok tt) by (vm_compute; reflexivity).
  destruct (lab_root_dir_paths 4300 jovyan_home {["JUPYTER_ROOT_DIR" := "/srv/work"]}
              (init_state fresh_home_fs) _ (run_completed _ _ _ Hr)) as (_ & _ & H & _).
  exact H.
Defined.

(** Edge case of the same lines: with [JUPYTER_ROOT_DIR] set to the empty
    string, [os.path.join] returns its second argument, so the user-settings,
    workspaces and notebook-signature paths are relative paths, resolved
    against whatever the server's working directory is. *)
Theorem lab_root_dir_empty lim home env st st' :
  env !! "JUPYTER_ROOT_DIR" = Some "" ->
  exec_script env (lab_script lim home) st = (st', Ok tt) ->
  cfg st' !! "LabApp.user_settings_dir" = Some (PStr ".jupyter/lab/user-settings") /\
  cfg st' !! "LabApp.workspaces_dir" = Some (PStr ".jupyter/lab/workspaces") /\
  cfg st' !! "NotebookNotary.db_file" = Some (PStr ".jupyter/nbsignatures.db").
Proof.
  intros He Hx. destruct (lab_paths_of_root _ _ _ _ _ Hx) as (_ & H1 & H2 & _ & H3).
  rewrite He in H1, H2, H3. auto.
Qed.

Lemma lab_root_dir_empty_witness :
  cfg (fst (exec_script {["JUPYTER_ROOT_DIR" := ""]} (lab_script 4300 jovyan_home)
              (init_state fresh_home_fs))) !! "NotebookNotary.db_file" =
  Some (PStr ".jupyter/nbsignatures.db").
Proof.
  assert (He : ({["JUPYTER_ROOT_DIR" := ""]} : environ) !! "JUPYTER_ROOT_DIR" = Some "")
    by reflexivity.
  assert (Hr : snd (exec_script {["JUPYTER_ROOT_DIR" := ""]} (lab_script 4300 jovyan_home)
                      (init_state fresh_home_fs)) = Ok tt) by (vm_compute; reflexivity).
  destruct (lab_root_dir_empty 4300 jovyan_home {["JUPYTER_ROOT_DIR" := ""]}
              (init_state fresh_home_fs) _ He (run_completed _ _ _ Hr)) as (_ & _ & H).
  exact H.
Defined.

Lemma script_keeps_assignif env pre cond body post k :
  script_keeps env pre k = true -> cond env = false -> script_keeps env post k = true ->
  script_keeps env (pre ++ AssignIf cond body :: post) k = true.
Proof.
  intros H1 Hc H2. rewrite script_keeps_app, H1. unfold script_keeps in *. simpl.
  rewrite Hc, andb_false_r. exact H2.
Qed.

Lemma lab_script_at_debug lim home :
  lab_script lim home =
  ((lab_server lim ++ firstn 16 (lab_kernel_and_rest lim)) ++
   AssignIf (fun env => env_flag env "JUPYTER_DEBUG" "false")
     [("Application.log_level", const (PStr "DEBUG"));
      ("ServerApp.allow_remote_access", const (PBool true))] ::
   (skipn 17 (lab_kernel_and_rest lim) ++ [guarded_setup home] ++ lab_script_tail))%list.
Proof. reflexivity. Qed.

Lemma lab_script_at_log_level lim home :
  lab_script lim home =
  ((lab_server lim ++ firstn 9 (lab_kernel_and_rest lim)) ++
   Assign "Application.log_level" (from_env "JUPYTER_LOG_LEVEL" (PStr "INFO")) ::
   (firstn 6 (skipn 10 (lab_kernel_and_rest lim)) ++
    AssignIf (fun env => env_flag env "JUPYTER_DEBUG" "false")
      [("Application.log_level", const (PStr "DEBUG"));
       ("ServerApp.allow_remote_access", const (PBool true))] ::
    (skipn 17 (lab_kernel_and_rest lim) ++ [guarded_setup home] ++ lab_script_tail)))%list.
Proof. reflexivity. Qed.

(** [JUPYTER_DEBUG] and [JUPYTER_LOG_LEVEL] (lines 94, 132-134).  After a
    completed evaluation of the lab configuration,
    [c.Application.log_level] is ['DEBUG'] when [JUPYTER_DEBUG], lower-cased,
    is ['true'], and otherwise [JUPYTER_LOG_LEVEL] (default ['INFO']);
    [c.ServerApp.allow_remote_access] is set to [True] in the first case and
    left untouched in the second. *)
Theorem lab_debug_settings lim home env st st' :
  exec_script env (lab_script lim home) st = (st', Ok tt) ->
  cfg st' !! "Application.log_level" =
    Some (PStr (if env_flag env "JUPYTER_DEBUG" "false" then "DEBUG"
                else match env !! "JUPYTER_LOG_LEVEL" with Some l => l | None => "INFO" end)) /\
  cfg st' !! "ServerApp.allow_remote_access" =
    (if env_flag env "JUPYTER_DEBUG" "false" then Some (PBool true)
     else cfg st !! "ServerApp.allow_remote_access").
Proof.
  intros Hx. destruct (env_flag env "JUPYTER_DEBUG" "false") eqn:Hf.
  - rewrite lab_script_at_debug in Hx. split.
    + eapply assignif_survives; [exact Hx | exact Hf | left; reflexivity | | reflexivity].
      repeat constructor; set_solver.
    + eapply assignif_survives; [exact Hx | exact Hf | right; left; reflexivity | | reflexivity].
      repeat constructor; set_solver.
  - split.
    + rewrite lab_script_at_log_level in Hx.
      apply assign_survives in Hx as (st1 & v & _ & Hv & ->).
      * unfold from_env, env_get in Hv. injection Hv as <-.
        by destruct (env !! "JUPYTER_LOG_LEVEL").
      * apply script_keeps_assignif; [reflexivity | exact Hf | reflexivity].
    + rewrite lab_script_at_debug in Hx. eapply exec_script_frame; [|exact Hx].
      apply script_keeps_assignif; [reflexivity | exact Hf | reflexivity].
Qed.

Lemma lab_debug_settings_witness :
  cfg (fst (exec_script {["JUPYTER_LOG_LEVEL" := "WARN"]} (lab_script 4300 jovyan_home)
              (init_state fresh_home_fs))) !! "Application.log_level" = Some (PStr "WARN").
Proof.
  assert (Hr : snd (exec_script {["JUPYTER_LOG_LEVEL" := "WARN"]} (lab_script 4300 jovyan_home)
                      (init_state fresh_home_fs)) = Ok tt) by (vm_compute; reflexivity).
  destruct (lab_debug_settings 4300 jovyan_home {["JUPYTER_LOG_LEVEL" := "WARN"]}
              (init_state fresh_home_fs) _ (run_completed _ _ _ Hr)) as [H _].
  exact H.
Defined.

Lemma lab_script_at_collab lim home :
  lab_script lim home =
  ((lab_server lim ++ firstn 15 (lab_kernel_and_rest lim)) ++
   AssignIf (fun env => env_flag env "JUPYTER_ENABLE_COLLABORATION" "false")
     [("LabApp.collaborative", const (PBool true));
      ("YDocExtension.ystore_class", const (PStr "jupyter_collaboration.stores.SQLiteYStore"))] ::
   (skipn 16 (lab_kernel_and_rest lim) ++ [guarded_setup home] ++ lab_script_tail))%list.
Proof. reflexivity. Qed.

(** Real-time collaboration (lines 123-125).  After a completed evaluation
    of the lab configuration, [c.LabApp.collaborative] is [True] and
    [c.YDocExtension.ystore_class] names the SQLite store when
    [JUPYTER_ENABLE_COLLABORATION], lower-cased, is ['true']; otherwise both
    are left untouched. *)
Theorem lab_collaboration_toggle lim home env st st' :
  exec_script env (lab_script lim home) st = (st', Ok tt) ->
  cfg st' !! "LabApp.collaborative" =
    (if env_flag env "JUPYTER_ENABLE_COLLABORATION" "false" then Some (PBool true)
     else cfg st !! "LabApp.collaborative") /\
  cfg st' !! "YDocExtension.ystore_class" =
    (if env_flag env "JUPYTER_ENABLE_COLLABORATION" "false"
     then Some (PStr "jupyter_collaboration.stores.SQLiteYStore")
     else cfg st !! "YDocExtension.ystore_class").
Proof.
  rewrite lab_script_at_collab. intros Hx.
  destruct (env_flag env "JUPYTER_ENABLE_COLLABORATION" "false") eqn:Hf; split.
  - eapply assignif_survives; [exact Hx | exact Hf | left; reflexivity | | reflexivity].
    repeat constructor; set_solver.
  - eapply assignif_survives; [exact Hx | exact Hf | right; left; reflexivity | | reflexivity].
    repeat constructor; set_solver.
  - eapply exec_script_frame; [|exact Hx].
    apply script_keeps_assignif; [reflexivity | exact Hf | reflexivity].
  - eapply exec_script_frame; [|exact Hx].
    apply script_keeps_assignif; [reflexivity | exact Hf | reflexivity].
Qed.

Lemma lab_collaboration_toggle_witness :
  cfg (fst (exec_script {["JUPYTER_ENABLE_COLLABORATION" := "True"]} (lab_script 4300 jovyan_home)
              (init_state fresh_home_fs))) !! "LabApp.collaborative" = Some (PBool true).
Proof.
  assert (Hr : snd (exec_script {["JUPYTER_ENABLE_COLLABORATION" := "True"]}
                      (lab_script 4300 jovyan_home) (init_state fresh_home_fs)) = Ok tt)
    by (vm_compute; reflexivity).
  destruct (lab_collaboration_toggle 4300 jovyan_home {["JUPYTER_ENABLE_COLLABORATION" := "True"]}
              (init_state fresh_home_fs) _ (run_completed _ _ _ Hr)) as [H _].
  exact H.
Defined.

Lemma lab_script_at_xsrf lim home :
  lab_script lim home =
  (firstn 7 (lab_server lim) ++
   AssignIf (fun env => truthy (env_get env "JUPYTERHUB_API_TOKEN" PNone))
     [("ServerApp.disable_check_xsrf", const (PBool true))] ::
   (skipn 8 (lab_server lim) ++ lab_kernel_and_rest lim ++ [guarded_setup home] ++
    lab_script_tail))%list.
Proof. reflexivity. Qed.

(** Hub-managed sessions (lines 25-26).  After a completed evaluation of the
    lab configuration, [c.ServerApp.disable_check_xsrf] is [True] when
    [JUPYTERHUB_API_TOKEN] is set to a non-empty string; when it is unset or
    empty the setting is left untouched. *)
Theorem lab_api_token_xsrf lim home env st st' :
  exec_script env (lab_script lim home) st = (st', Ok tt) ->
  cfg st' !! "ServerApp.disable_check_xsrf" =
    match env !! "JUPYTERHUB_API_TOKEN" with
    | Some t => if String.eqb t "" then cfg st !! "ServerApp.disable_check_xsrf"
                else Some (PBool true)
    | None => cfg st !! "ServerApp.disable_check_xsrf"
    end.
Proof.
  rewrite lab_script_at_xsrf. intros Hx.
  assert (Hc : truthy (env_get env "JUPYTERHUB_API_TOKEN" PNone) =
               match env !! "JUPYTERHUB_API_TOKEN" with
               | Some t => negb (String.eqb t "") | None => false end)
    by (unfold env_get; by destruct (env !! "JUPYTERHUB_API_TOKEN")).
  destruct (truthy (env_get env "JUPYTERHUB_API_TOKEN" PNone)) eqn:Ht.
  - assert (Hv : cfg st' !! "ServerApp.disable_check_xsrf" = Some (PBool true)).
    { eapply assignif_survives; [exact Hx | exact Ht | left; reflexivity | | reflexivity].
      repeat constructor; set_solver. }
    rewrite Hv. destruct (env !! "JUPYTERHUB_API_TOKEN"); [|discriminate].
    by destruct (String.eqb s "").
  - assert (Hv : cfg st' !! "ServerApp.disable_check_xsrf" = cfg st !! "ServerApp.disable_check_xsrf").
    { eapply exec_script_frame; [|exact Hx].
      apply script_keeps_assignif; [reflexivity | exact Ht | reflexivity]. }
    rewrite Hv. destruct (env !! "JUPYTERHUB_API_TOKEN"); [|done].
    by destruct (String.eqb s "").
Qed.

Lemma lab_api_token_xsrf_witness :
  cfg (fst (exec_script {["JUPYTERHUB_API_TOKEN" := "abc123"]} (lab_script 4300 jovyan_home)
              (init_state fresh_home_fs))) !! "ServerApp.disable_check_xsrf" = Some (PBool true).
Proof.
  assert (Hr : snd (exec_script {["JUPYTERHUB_API_TOKEN" := "abc123"]}
                      (lab_script 4300 jovyan_home) (init_state fresh_home_fs)) = Ok tt)
    by (vm_compute; reflexivity).
  exact (lab_api_token_xsrf 4300 jovyan_home {["JUPYTERHUB_API_TOKEN" := "abc123"]}
           (init_state fresh_home_fs) _ (run_completed _ _ _ Hr)).
Defined.

(** Startup banner (lines 228-242).  A completed evaluation of the lab
    configuration prints nothing but, at most, the one warning line of a
    failed [setup_user_environment], followed by the six banner lines; the
    home-directory line shows [JUPYTER_ROOT_DIR] (default ['/home/jovyan']). *)
Theorem lab_startup_banner lim home env st st' :
  exec_script env (lab_script lim home) st = (st', Ok tt) ->
  exists warning,
    (warning = [] \/ exists e, warning = [setup_warning e]) /\
    out st' = (out st ++ warning ++
      [repeat_str 50 "=";
       "JupyterLab for kubeadm-python-cluster";
       ("Python version: " ++ match env !! "PYTHON_VERSION" with Some v => v | None => "Unknown" end)%string;
       ("User: " ++ match env !! "NB_USER" with Some u => u | None => "jovyan" end)%string;
       ("Home directory: " ++ match env !! "JUPYTER_ROOT_DIR" with
                              | Some d => d | None => "/home/jovyan" end)%string;
       repeat_str 50 "="])%list.
Proof.
  rewrite lab_script_at_setup. intros Hx.
  apply exec_script_app_inv in Hx as (st1 & H1 & Hx).
  apply exec_script_app_inv in Hx as (st2 & H2 & H3).
  pose proof H1 as Ho1. apply exec_script_quiet in Ho1 as [Ho1 _]; [|reflexivity].
  pose proof H1 as Hroot. apply root_dir_after_server in Hroot; [|reflexivity].
  assert (Hw : cfg st2 = cfg st1 /\
               exists warning, (warning = [] \/ exists e, warning = [setup_warning e]) /\
                               out st2 = (out st1 ++ warning)%list).
  { unfold exec_script in H2. cbn [for_each exec_stmt guarded_setup] in H2.
    unfold bind, try_except, lift_fs, emit, modify, ret in H2.
    destruct (setup_user_environment env home (disk st1)) as [d [[]|e]].
    - inversion H2; subst. simpl. split; [done|]. exists []. rewrite app_nil_r. auto.
    - destruct (is_Exception e); inversion H2; subst; simpl; (split; [done|]);
        exists [setup_warning e]; eauto. }
  destruct Hw as [Hc2 (warning & Hwarn & Ho2)].
  exists warning. split; [exact Hwarn|].
  unfold exec_script, lab_script_tail in H3. cbn [for_each exec_stmt] in H3.
  unfold bind, get, emit, modify, ret in H3. simpl in H3. inversion H3; subst. simpl.
  rewrite Ho2, Ho1, <- !app_assoc. simpl. unfold cfg_get. rewrite Hc2, Hroot. unfold env_get.
  destruct (env !! "PYTHON_VERSION"), (env !! "NB_USER"), (env !! "JUPYTER_ROOT_DIR"); reflexivity.
Qed.

Lemma lab_startup_banner_witness :
  exists warning,
    (warning = [] \/ exists e, warning = [setup_warning e]) /\
    out (fst (exec_script {["NB_USER" := "alice"]} (lab_script 4300 jovyan_home)
                (init_state readonly_home_fs))) =
    (warning ++
      [repeat_str 50 "="; "JupyterLab for kubeadm-python-cluster"; "Python version: Unknown";
       "User: alice"; "Home directory: /home/jovyan"; repeat_str 50 "="])%list.
Proof.
  assert (Hr : snd (exec_script {["NB_USER" := "alice"]} (lab_script 4300 jovyan_home)
                      (init_state readonly_home_fs)) = Ok tt) by (vm_compute; reflexivity).
  exact (lab_startup_banner 4300 jovyan_home {["NB_USER" := "alice"]}
           (init_state readonly_home_fs) _ (run_completed _ _ _ Hr)).
Defined.

(* ------------------------------------------------------------------ *)
(** ** [setup_user_environment] on a fresh home *)

Lemma resolve_after_insert s p n q m :
  s !! p = None -> resolve s q = Found m -> resolve (<[p := n]> s) q = Found m.
Proof. intros Hp. apply resolve_weaken, insert_subseteq, Hp. Qed.

Lemma resolve_child_new s x q w :
  resolve s q = Found (NDir w) -> s !! (x :: q) = None -> resolve s (x :: q) = NoEnt.
Proof. intros Hq Hx. simpl. by rewrite Hq, Hx. Qed.

Lemma resolve_child_inserted s x q w n :
  s !! (x :: q) = None -> resolve s q = Found (NDir w) ->
  resolve (<[x :: q := n]> s) (x :: q) = Found n.
Proof.
  intros Hx Hq. simpl. rewrite (resolve_after_insert _ _ _ _ _ Hx Hq).
  by rewrite lookup_insert_eq.
Qed.

Lemma os_mkdir_new s x q :
  resolve s q = Found (NDir true) -> s !! (x :: q) = None ->
  os_mkdir (x :: q) s = (<[x :: q := NDir true]> s, Ok tt).
Proof. intros Hq Hx. unfold os_mkdir. by rewrite Hq, Hx. Qed.

Lemma os_mkdir_noent s x q :
  resolve s q = NoEnt -> os_mkdir (x :: q) s = (s, Raise (FileNotFoundError (x :: q))).
Proof. intros Hq. unfold os_mkdir. by rewrite Hq. Qed.

Lemma mkdir_parents_ok e p s s1 :
  os_mkdir p s = (s1, Ok tt) -> mkdir_parents e p s = (s1, Ok tt).
Proof. intros H. destruct p; cbn [mkdir_parents]; by rewrite H. Qed.

Lemma mkdir_single_ok e p s s1 :
  os_mkdir p s = (s1, Ok tt) -> mkdir_single e p s = (s1, Ok tt).
Proof. intros H. unfold mkdir_single. by rewrite H. Qed.

Lemma mkdir_parents_missing_parent e x q s s1 p :
  os_mkdir (x :: q) s = (s1, Raise (FileNotFoundError p)) ->
  mkdir_parents e (x :: q) s = (mkdir_parents true q ;;; mkdir_single e (x :: q)) s1.
Proof. intros H. cbn [mkdir_parents]. by rewrite H. Qed.

(** [mkdir(parents=True, exist_ok=True)] of a missing entry of a writable
    directory creates it. *)
Lemma mkdir_parents_new s x q :
  resolve s q = Found (NDir true) -> s !! (x :: q) = None ->
  mkdir_parents true (x :: q) s = (<[x :: q := NDir true]> s, Ok tt).
Proof. intros Hq Hx. by apply mkdir_parents_ok, os_mkdir_new. Qed.

(** ... and of a missing entry two levels down, creates the intermediate
    directory first. *)
Lemma mkdir_parents_new2 s x y q :
  resolve s q = Found (NDir true) -> s !! (y :: q) = None -> s !! (x :: y :: q) = None ->
  mkdir_parents true (x :: y :: q) s =
  (<[x :: y :: q := NDir true]> (<[y :: q := NDir true]> s), Ok tt).
Proof.
  intros Hq Hy Hx.
  rewrite (mkdir_parents_missing_parent _ _ _ _ _ _
             (os_mkdir_noent _ _ _ (resolve_child_new _ _ _ _ Hq Hy))).
  rewrite (bind_ok _ _ _ (<[y :: q := NDir true]> s) tt); [|by apply mkdir_parents_new].
  cbv beta. apply mkdir_single_ok, os_mkdir_new.
  - by apply (resolve_child_inserted _ _ _ true).
  - assert (Hne : x :: y :: q <> y :: q)
      by (intros E; apply (f_equal (@length string)) in E; simpl in E; lia).
    by rewrite lookup_insert_ne by congruence.
Qed.

(** On a home that is a writable directory holding none of the entries the
    routine creates, [setup_user_environment] (lines 150-225) succeeds,
    adds exactly [notebooks], [data], [projects], [.jupyter] and
    [.jupyter/custom] as directories and [notebooks/Welcome.ipynb] holding
    [json.dump(welcome_content, indent=2)], and leaves every other entry
    of the tree as it was. *)
Theorem setup_fresh_home env home s :
  resolve s home = Found (NDir true) ->
  Forall (fun p => s !! p = None)
    ["notebooks" :: home; "data" :: home; "projects" :: home; ".jupyter" :: home;
     "custom" :: ".jupyter" :: home; sample_notebook home] ->
  setup_user_environment env home s =
  (<[sample_notebook home := NFile (JsonDump (welcome_content env home) 2)]>
   (<["custom" :: ".jupyter" :: home := NDir true]>
    (<[".jupyter" :: home := NDir true]>
     (<["projects" :: home := NDir true]>
      (<["data" :: home := NDir true]>
       (<["notebooks" :: home := NDir true]> s))))), Ok tt).
Proof.
  intros Hh Hn. repeat (apply Forall_cons in Hn as [? Hn]). clear Hn.
  rename H into Hnb, H0 into Hda, H1 into Hpr, H2 into Hju, H3 into Hcu, H4 into Hsa.
  unfold sample_notebook in *.
  set (s1 := <["notebooks" :: home := NDir true]> s).
  set (s2 := <["data" :: home := NDir true]> s1).
  set (s3 := <["projects" :: home := NDir true]> s2).
  set (s4 := <["custom" :: ".jupyter" :: home := NDir true]> (<[".jupyter" :: home := NDir true]> s3)).
  assert (R1 : resolve s1 home = Found (NDir true)) by (by apply resolve_after_insert).
  assert (R2 : resolve s2 home = Found (NDir true))
    by (apply resolve_after_insert; [unfold s1; by rewrite lookup_insert_ne | done]).
  assert (R3 : resolve s3 home = Found (NDir true))
    by (apply resolve_after_insert; [unfold s2, s1; by rewrite !lookup_insert_ne | done]).
  assert (Hdirs : for_each (user_directories home) (fun d => mkdir_parents true d) s = (s4, Ok tt)).
  { unfold user_directories. cbn [for_each].
    erewrite bind_ok; [|by apply mkdir_parents_new].
    erewrite bind_ok; [|apply mkdir_parents_new; [done | unfold s1; by rewrite lookup_insert_ne]].
    erewrite bind_ok; [|apply mkdir_parents_new; [done | unfold s2, s1; by rewrite !lookup_insert_ne]].
    erewrite bind_ok; [|apply mkdir_parents_new2;
                        [done | unfold s3, s2, s1; by rewrite !lookup_insert_ne
                              | unfold s3, s2, s1; by rewrite !lookup_insert_ne]].
    reflexivity. }
  assert (R4 : resolve s4 home = Found (NDir true)).
  { unfold s4. apply resolve_after_insert.
    { rewrite lookup_insert_ne by congruence. unfold s3, s2, s1. by rewrite !lookup_insert_ne. }
    apply resolve_after_insert; [unfold s3, s2, s1; by rewrite !lookup_insert_ne | exact R3]. }
  assert (Rnb : resolve s4 ("notebooks" :: home) = Found (NDir true)).
  { simpl. rewrite R4. unfold s4, s3, s2, s1.
    rewrite (lookup_insert_ne _ ("custom" :: ".jupyter" :: home)) by congruence.
    rewrite (lookup_insert_ne _ (".jupyter" :: home)) by congruence.
    rewrite (lookup_insert_ne _ ("projects" :: home)) by congruence.
    rewrite (lookup_insert_ne _ ("data" :: home)) by congruence.
    by rewrite lookup_insert_eq. }
  assert (L4 : s4 !! ("Welcome.ipynb" :: "notebooks" :: home) = None)
    by (unfold s4, s3, s2, s1; by rewrite !lookup_insert_ne).
  unfold setup_user_environment. rewrite (bind_ok _ _ _ _ _ Hdirs).
  unfold bind, get, path_exists, sample_notebook.
  rewrite (resolve_child_new _ _ _ _ Rnb L4).
  unfold open_write. rewrite Rnb, L4. reflexivity.
Qed.

Lemma setup_fresh_home_witness :
  setup_user_environment ∅ jovyan_home fresh_home_fs =
  (<[sample_notebook jovyan_home := NFile (JsonDump (welcome_content ∅ jovyan_home) 2)]>
   (<["custom" :: ".jupyter" :: jovyan_home := NDir true]>
    (<[".jupyter" :: jovyan_home := NDir true]>
     (<["projects" :: jovyan_home := NDir true]>
      (<["data" :: jovyan_home := NDir true]>
       (<["notebooks" :: jovyan_home := NDir true]> fresh_home_fs))))), Ok tt).
Proof.
  apply setup_fresh_home; [reflexivity|].
  repeat constructor.
Defined.

(** A home directory the user cannot write to: the first [mkdir] of
    [setup_user_environment] raises [PermissionError] for [notebooks], and
    the tree is left as it was. *)
Theorem setup_readonly_home env home s :
  resolve s home = Found (NDir false) -> s !! ("notebooks" :: home) = None ->
  setup_user_environment env home s = (s, Raise (PermissionError ("notebooks" :: home))).
Proof.
  intros Hh Hn.
  assert (Hm : os_mkdir ("notebooks" :: home) s = (s, Raise (PermissionError ("notebooks" :: home))))
    by (unfold os_mkdir; by rewrite Hh, Hn).
  assert (Hp : mkdir_parents true ("notebooks" :: home) s =
               (s, Raise (PermissionError ("notebooks" :: home)))).
  { cbn [mkdir_parents]. rewrite Hm. simpl.
    unfold path_is_dir. by rewrite (resolve_child_new _ _ _ _ Hh Hn). }
  unfold setup_user_environment, user_directories. cbn [for_each].
  rewrite (bind_raise _ _ _ _ _ (bind_raise _ _ _ _ _ Hp)). reflexivity.
Qed.

Lemma setup_readonly_home_witness :
  setup_user_environment ∅ jovyan_home readonly_home_fs =
  (readonly_home_fs, Raise (PermissionError ["notebooks"; "jovyan"; "home"])).
Proof. apply setup_readonly_home; reflexivity. Defined.

(* ------------------------------------------------------------------ *)
(** ** Whitespace around [JUPYTER_PORT] *)

Lemma drop_spaces_app w cs : forallb is_space w = true -> drop_spaces (w ++ cs) = drop_spaces cs.
Proof.
  induction w as [|c w IH]; simpl; [done|]. intros H.
  apply andb_true_iff in H as [Hc H]. rewrite Hc. exact (IH H).
Qed.

Lemma forallb_is_space_rev w : forallb is_space (rev w) = forallb is_space w.
Proof.
  induction w as [|c w IH]; simpl; [done|].
  rewrite forallb_app, IH. simpl. by rewrite andb_true_r, andb_comm.
Qed.

Lemma strip_padded w1 ds w2 :
  forallb is_space w1 = true -> forallb is_space w2 = true ->
  ds <> [] -> all_digits ds = true ->
  strip (w1 ++ ds ++ w2) = ds.
Proof.
  intros H1 H2 Hne Hd. unfold strip. rewrite drop_spaces_app by done.
  destruct ds as [|d ds']; [done|].
  pose proof Hd as Hd'. simpl in Hd'. apply andb_true_iff in Hd' as [Hc _].
  assert (E : drop_spaces ((d :: ds') ++ w2)%list = ((d :: ds') ++ w2)%list)
    by (simpl; by rewrite digit_not_space).
  rewrite E, rev_app_distr, drop_spaces_app by (by rewrite forallb_is_space_rev).
  rewrite drop_spaces_digits by (by rewrite all_digits_rev). apply rev_involutive.
Qed.

(** [int()] of a string of decimal digits with whitespace on either side. *)
Lemma py_int_of_padded lim w1 ds w2 :
  forallb is_space w1 = true -> forallb is_space w2 = true ->
  ds <> [] -> all_digits ds = true -> (lim = 0 \/ length ds <= lim)%nat ->
  py_int_of_string lim (string_of_list_ascii (w1 ++ ds ++ w2)) = Ok (digits_value ds).
Proof.
  intros H1 H2 Hne Hd Hlim. unfold py_int_of_string.
  rewrite list_ascii_of_string_of_list_ascii, strip_padded by done.
  rewrite remove_underscores_digits by done.
  destruct ds as [|c cs]; [done|].
  rewrite parse_signed_digits_digits by done.
  replace ((0 <? lim)%nat && (lim <? length (c :: cs))%nat) with false; [reflexivity|].
  symmetry. apply andb_false_iff. destruct Hlim as [->|Hle]; [by left|right].
  apply Nat.ltb_ge. exact Hle.
Qed.

(** Line 13: [int()] strips whitespace, so [JUPYTER_PORT] holding a decimal
    numeral with spaces, tabs, line feeds, vertical tabs, form feeds or
    carriage returns around it (a trailing newline, say) still sets
    [c.ServerApp.port] to the numeral's value. *)
Theorem lab_port_padded lim home env st w1 ds w2 :
  env !! "JUPYTER_PORT" = Some (string_of_list_ascii (w1 ++ ds ++ w2)) ->
  forallb is_space w1 = true -> forallb is_space w2 = true ->
  ds <> [] -> all_digits ds = true -> (lim = 0 \/ length ds <= lim)%nat ->
  cfg (fst (exec_script env (lab_script lim home) st)) !! "ServerApp.port" =
    Some (PInt (digits_value ds)).
Proof.
  intros Hp H1 H2 Hne Hd Hlim. rewrite lab_script_at_port.
  eapply assign_persists; [reflexivity | | reflexivity].
  unfold int_from_env, env_get. rewrite Hp. simpl. by rewrite py_int_of_padded.
Qed.

Lemma lab_port_padded_witness :
  cfg (fst (exec_script {["JUPYTER_PORT" := " 8080" ++ String (ascii_of_nat 10) ""]}
              (lab_script 4300 jovyan_home) (init_state fresh_home_fs))) !! "ServerApp.port" =
  Some (PInt 8080).
Proof.
  apply (lab_port_padded 4300 jovyan_home _ _ [" "%char] ["8"; "0"; "8"; "0"]%char
           [ascii_of_nat 10]); try reflexivity; try discriminate.
  right. simpl. lia.
Defined.
